(** * Quiz application: the engine, the scoring rules and the leaderboard

    A shallow embedding of the core classes of [quiz_application.py]
    ([Question], [QuizResult], [HighScoreManager], [QuizEngine]) and the
    properties of the quiz-session state machine and of the leaderboard.

    Conventions of the embedding.
    - Python [int] is [Z]; [Optional[int]] is [option Z].
    - A Python [float] is a [pyfloat]: the rational that a finite double
      denotes, or an infinity.  Division and multiplication round to the
      nearest double, ties to even, as IEEE 754 binary64 does; the
      comparisons are exact.  A not-a-number has no representation: the
      engine computes none, and one in the scores file is outside the model.
    - A [dict] with string keys is a [gmap string _]; an unguarded
      subscript [d[k]] raises [KeyError] when the key is absent.
    - A method is a program in a state-and-exception monad: it receives the
      object, and returns either a value or a raised exception together with
      the object as the call has left it.
    - Reading the clock ([datetime.now()]) and writing the scores file
      ([_save_scores], which catches every exception and does not touch
      [self.scores]) are outside the in-memory state: the time stamp is an
      explicit argument and the file write is not modelled. *)

From Stdlib Require Import ZArith QArith Lia List Sorted Permutation.
From stdpp Require Import base option list gmap strings.

Local Open Scope Z_scope.

(** ** Exceptions and the method monad *)

Inductive exn : Type :=
| KeyError
| IndexError
| ZeroDivisionError
| OverflowError.

Inductive outcome (A : Type) : Type :=
| Return (a : A)
| Raise (x : exn).

Arguments Return {A} a.
Arguments Raise {A} x.

Definition prog (S A : Type) : Type := S -> outcome A * S.

Definition ret {S A : Type} (a : A) : prog S A := fun s => (Return a, s).

Definition bind {S A B : Type} (m : prog S A) (k : A -> prog S B) : prog S B :=
  fun s =>
    match m s with
    | (Return a, s') => k a s'
    | (Raise x, s') => (Raise x, s')
    end.

Definition raise {S A : Type} (x : exn) : prog S A := fun s => (Raise x, s).

Definition get_self {S : Type} : prog S S := fun s => (Return s, s).

Definition set_self {S : Type} (s' : S) : prog S unit := fun _ => (Return tt, s').

Definition lift {S A : Type} (o : outcome A) : prog S A := fun s => (o, s).

Declare Scope prog_scope.
Delimit Scope prog_scope with prog.
Notation "'let!' x ':=' m 'in' k" := (bind m (fun x => k))
  (at level 10, x name, m at level 100, k at level 200) : prog_scope.
Notation "'do!' m 'in' k" := (bind m (fun _ => k))
  (at level 10, m at level 100, k at level 200) : prog_scope.

(** ** Python containers *)

(** [d[k]] on a dict. *)
Definition dict_getitem {V : Type} (d : gmap string V) (k : string) : outcome V :=
  match d !! k with
  | Some v => Return v
  | None => Raise KeyError
  end.

(** [l[i]] on a list: a negative index counts from the end, an index out of
    [-len(l) <= i < len(l)] raises [IndexError]. *)
Definition list_getitem {A : Type} (l : list A) (i : Z) : outcome A :=
  let n := Z.of_nat (length l) in
  let j := if i <? 0 then i + n else i in
  if (0 <=? j) && (j <? n) then
    match l !! Z.to_nat j with
    | Some a => Return a
    | None => Raise IndexError
    end
  else Raise IndexError.

(** [sum(...)] over integers: starts from 0 and adds from the left. *)
Definition py_sum (l : list Z) : Z := fold_left Z.add l 0.

Definition Qlt_bool (x y : Q) : bool := negb (Qle_bool y x).

(** ** Floating point numbers *)

(** A float: a finite value, given by the rational that it denotes, or an
    infinity.  Both zeros are [Finite 0]; they compare equal in Python. *)
Inductive pyfloat : Type :=
| Finite (q : Q)
| PosInf
| NegInf.

(** [-x] *)
Definition fneg (x : pyfloat) : pyfloat :=
  match x with
  | Finite q => Finite (- q)%Q
  | PosInf => NegInf
  | NegInf => PosInf
  end.

Definition fcompare (x y : pyfloat) : comparison :=
  match x with
  | Finite a =>
      match y with
      | Finite b => (a ?= b)%Q
      | PosInf => Lt
      | NegInf => Gt
      end
  | PosInf =>
      match y with
      | PosInf => Eq
      | _ => Gt
      end
  | NegInf =>
      match y with
      | NegInf => Eq
      | _ => Lt
      end
  end.

(** [x == y], [x < y] and [x >= y] on floats. *)
Definition feq_bool (x y : pyfloat) : bool :=
  match fcompare x y with
  | Eq => true
  | _ => false
  end.

Definition flt_bool (x y : pyfloat) : bool :=
  match fcompare x y with
  | Lt => true
  | _ => false
  end.

Definition fge_bool (x y : pyfloat) : bool :=
  match fcompare x y with
  | Lt => false
  | _ => true
  end.

(** The integer nearest to [a / b], the even one of the two when [a / b] lies
    half-way; [0 <= a] and [0 < b]. *)
Definition round_half_even (a b : Z) : Z :=
  let f := a / b in
  match 2 * (a mod b) ?= b with
  | Lt => f
  | Gt => f + 1
  | Eq => if Z.even f then f else f + 1
  end.

(** [2 ^ e <= n / d], for positive [n] and [d]. *)
Definition pow2_le (e n d : Z) : bool :=
  if 0 <=? e then d * 2 ^ e <=? n else d <=? n * 2 ^ (- e).

(** The exponent [e] with [2 ^ e <= n / d < 2 ^ (e + 1)]. *)
Definition floor_log2 (n d : Z) : Z :=
  let e := Z.log2 n - Z.log2 d in
  if pow2_le e n d then e else e - 1.

(** The positive rational [n / d] rounded to 53 significant bits, or to a
    multiple of [2 ^ -1074] in the subnormal range, with no bound on the
    exponent above. *)
Definition round_magnitude (n d : Z) : Q :=
  let k := Z.max (floor_log2 n d - 52) (-1074) in
  if 0 <=? k then inject_Z (round_half_even n (d * 2 ^ k) * 2 ^ k)
  else Qred (Qmake (round_half_even (n * 2 ^ (- k)) d) (Z.to_pos (2 ^ (- k)))).

(** The double nearest to the rational [q], ties to even; an infinity when
    the rounded value is [2 ^ 1024] or more in magnitude. *)
Definition round_double (q : Q) : pyfloat :=
  let q' := Qred q in
  match Qnum q' with
  | Z0 => Finite 0
  | Zpos n =>
      let v := round_magnitude (Zpos n) (Zpos (Qden q')) in
      if Qle_bool (inject_Z (2 ^ 1024)) v then PosInf else Finite v
  | Zneg n =>
      let v := round_magnitude (Zpos n) (Zpos (Qden q')) in
      if Qle_bool (inject_Z (2 ^ 1024)) v then NegInf else Finite (- v)%Q
  end.

(** [a / b] on integers: the true quotient, correctly rounded to a float;
    [ZeroDivisionError] on a zero divisor and [OverflowError] when the
    result is too large for a float. *)
Definition truediv (a b : Z) : outcome pyfloat :=
  if b =? 0 then Raise ZeroDivisionError
  else
    match round_double (inject_Z a / inject_Z b) with
    | Finite q => Return (Finite q)
    | _ => Raise OverflowError
    end.

(** [x * 100] on a float: the product rounded to a float, an infinity when
    it is too large. *)
Definition times_100 (x : pyfloat) : pyfloat :=
  match x with
  | Finite q => round_double (q * 100)
  | PosInf => PosInf
  | NegInf => NegInf
  end.

(** [a < b] on the 2-tuples used as sort keys: the first components that
    differ decide; equal tuples are not less. *)
Definition tuple_lt (a b : pyfloat * Z) : bool :=
  if feq_bool a.1 b.1 then a.2 <? b.2 else flt_bool a.1 b.1.

Section py_sort.
Context {A : Type} (key : A -> pyfloat * Z).

  (** Insertion of [x] into a sorted prefix, after every element that is not
      greater than [x]. *)
Fixpoint insort (x : A) (l : list A) : list A :=
    match l with
    | [] => [x]
    | y :: l' => if tuple_lt (key x) (key y) then x :: y :: l' else y :: insort x l'
    end.

  (** [l.sort(key=key)]: a stable sort that only uses [<] on the keys.  The
      elements are taken from the left and each one is inserted into the
      sorted prefix behind the elements with an equal key, as CPython does
      for short lists; every stable sort returns this same list. *)
Definition py_sort (l : list A) : list A :=
    fold_left (fun acc x => insort x acc) l [].
End py_sort.

(** ** Core data classes *)

Module Question.
Record t : Type := mk {
    question : string;
    options : list string;
    correct_answer : Z;
    time_limit : Z;
    marks : Z;
    negative_marks : Z
  }.

  (** [Question.is_correct] *)
Definition is_correct (self : t) (answer : Z) : bool :=
    answer =? correct_answer self.
End Question.

(** The dictionaries stored in a leaderboard bucket ([QuizResult.to_dict]). *)
Module Entry.
Record t : Type := mk {
    player_name : string;
    score : Z;
    total_marks : Z;
    percentage : pyfloat;
    timestamp : string
  }.
End Entry.

Module QuizResult.
Record t : Type := mk {
    department : string;
    difficulty : string;
    score : Z;
    total_marks : Z;
    percentage : pyfloat;
    player_name : string;
    timestamp : string
  }.

Definition to_dict (self : t) : Entry.t :=
    {| Entry.player_name := player_name self;
       Entry.score := score self;
       Entry.total_marks := total_marks self;
       Entry.percentage := percentage self;
       Entry.timestamp := timestamp self |}.

  (** [QuizResult.passed]: the 80% threshold. *)
Definition passed (self : t) : bool := fge_bool (percentage self) (Finite 80).
End QuizResult.

(** ** High score manager *)

Module HighScoreManager.
Record t : Type := mk {
    filename : string;
    scores : gmap string (gmap string (list Entry.t))
  }.
End HighScoreManager.

Definition default_departments : list string :=
  ["Electrical Engineering"; "Computer Science";
   "Business Administration"; "Mathematics"]%string.

Definition default_difficulties : list string :=
  ["Easy"; "Medium"; "Hard"; "Expert"]%string.

(** [HighScoreManager._create_default_structure] *)
Definition _create_default_structure : gmap string (gmap string (list Entry.t)) :=
  fold_left
    (fun structure dept =>
       <[dept := fold_left (fun by_diff diff => <[diff := []]> by_diff)
                           default_difficulties ∅]> structure)
    default_departments ∅.

(** The key of the sort in [add_score]:
    [lambda x: (-x['percentage'], -x['score'])]. *)
Definition sort_key (x : Entry.t) : pyfloat * Z :=
  (fneg (Entry.percentage x), - Entry.score x).

Local Open Scope prog_scope.

(** [HighScoreManager.add_score] *)
Definition add_score (result : QuizResult.t) : prog HighScoreManager.t unit :=
  let! self := get_self in
  let! by_diff := lift (dict_getitem (HighScoreManager.scores self)
                                     (QuizResult.department result)) in
  let! dept_scores := lift (dict_getitem by_diff (QuizResult.difficulty result)) in
  let dept_scores := dept_scores ++ [QuizResult.to_dict result] in
  let dept_scores := py_sort sort_key dept_scores in
  set_self
    {| HighScoreManager.filename := HighScoreManager.filename self;
       HighScoreManager.scores :=
         <[QuizResult.department result :=
             <[QuizResult.difficulty result := take 10 dept_scores]> by_diff]>
           (HighScoreManager.scores self) |}.

(** [HighScoreManager.get_leaderboard]:
    [self.scores.get(department, {}).get(difficulty, [])] *)
Definition get_leaderboard (self : HighScoreManager.t) (department difficulty : string)
  : list Entry.t :=
  default [] (default ∅ (HighScoreManager.scores self !! department) !! difficulty).

(** ** Quiz engine *)

(** A question record of the questions file, as [load_quiz] reads it. *)
Module QuestionData.
Record t : Type := mk {
    question : string;
    options : list string;
    correct_answer : Z;
    time_limit : Z;
    marks : Z;
    negative_marks : Z
  }.
End QuestionData.

(** The three feedback templates of [submit_answer] and its fixed message,
    with the values that the f-strings interpolate. *)
Inductive feedback : Type :=
| No_question_available
| Times_up (negative_marks : Z)
| Correct (marks : Z)
| Wrong (correct_option : string) (negative_marks : Z).

Module QuizEngine.
Record t : Type := mk {
    all_questions : gmap string (gmap string (list QuestionData.t));
    current_questions : list Question.t;
    current_question_index : Z;
    score : Z;
    total_marks : Z;
    high_score_manager : HighScoreManager.t
  }.

Definition with_quiz (self : t) (qs : list Question.t) (i s tm : Z) : t :=
    mk (all_questions self) qs i s tm (high_score_manager self).

Definition with_index (self : t) (i : Z) : t :=
    mk (all_questions self) (current_questions self) i (score self)
       (total_marks self) (high_score_manager self).

Definition with_score (self : t) (s : Z) : t :=
    mk (all_questions self) (current_questions self)
       (current_question_index self) s (total_marks self)
       (high_score_manager self).

Definition with_high_score_manager (self : t) (h : HighScoreManager.t) : t :=
    mk (all_questions self) (current_questions self)
       (current_question_index self) (score self) (total_marks self) h.

  (** [QuizEngine.__init__] once [_load_questions] has read the catalogue
      [data] and the high score manager has loaded [h]. *)
Definition init (data : gmap string (gmap string (list QuestionData.t)))
             (h : HighScoreManager.t) : t :=
    mk data [] 0 0 0 h.
End QuizEngine.

Definition len {A : Type} (l : list A) : Z := Z.of_nat (length l).

(** A call of a method of [self.high_score_manager]. *)
Definition on_high_score_manager {A : Type} (m : prog HighScoreManager.t A)
  : prog QuizEngine.t A :=
  fun self =>
    let (o, h) := m (QuizEngine.high_score_manager self) in
    (o, QuizEngine.with_high_score_manager self h).

Definition build_question (q : QuestionData.t) : Question.t :=
  Question.mk (QuestionData.question q) (QuestionData.options q)
              (QuestionData.correct_answer q) (QuestionData.time_limit q)
              (QuestionData.marks q) (QuestionData.negative_marks q).

(** [k in d] *)
Definition dict_contains {V : Type} (d : gmap string V) (k : string) : bool :=
  bool_decide (is_Some (d !! k)).

(** [QuizEngine.load_quiz] *)
Definition load_quiz (department difficulty : string) : prog QuizEngine.t bool :=
  let! self := get_self in
  if negb (dict_contains (QuizEngine.all_questions self) department) then ret false
  else
    let! by_diff := lift (dict_getitem (QuizEngine.all_questions self) department) in
    if negb (dict_contains by_diff difficulty) then ret false
    else
      let! question_data := lift (dict_getitem by_diff difficulty) in
      let current_questions := map build_question question_data in
      do! set_self (QuizEngine.with_quiz self current_questions 0 0
                      (py_sum (map Question.marks current_questions))) in
      ret true.

(** [QuizEngine.get_current_question] *)
Definition get_current_question : prog QuizEngine.t (option Question.t) :=
  let! self := get_self in
  let i := QuizEngine.current_question_index self in
  if (0 <=? i) && (i <? len (QuizEngine.current_questions self)) then
    let! q := lift (list_getitem (QuizEngine.current_questions self) i) in
    ret (Some q)
  else ret None.

(** [self.score += points] *)
Definition add_points (points : Z) : prog QuizEngine.t unit :=
  let! self := get_self in
  set_self (QuizEngine.with_score self (QuizEngine.score self + points)).

(** [QuizEngine.submit_answer]; [answer] is [None] when the time expired. *)
Definition submit_answer (answer : option Z)
  : prog QuizEngine.t (bool * Z * feedback) :=
  let! question := get_current_question in
  match question with
  | None => ret (false, 0, No_question_available)
  | Some question =>
      match answer with
      | None =>
          let points := - Question.negative_marks question in
          do! add_points points in
          ret (false, points, Times_up (Question.negative_marks question))
      | Some answer =>
          if Question.is_correct question answer then
            let points := Question.marks question in
            do! add_points points in
            ret (true, points, Correct (Question.marks question))
          else
            let points := - Question.negative_marks question in
            do! add_points points in
            let! correct_option :=
              lift (list_getitem (Question.options question)
                                 (Question.correct_answer question)) in
            ret (false, points,
                 Wrong correct_option (Question.negative_marks question))
      end
  end.

(** [QuizEngine.next_question] *)
Definition next_question : prog QuizEngine.t bool :=
  let! self := get_self in
  do! set_self (QuizEngine.with_index self
                  (QuizEngine.current_question_index self + 1)) in
  let! self := get_self in
  ret (QuizEngine.current_question_index self
         <? len (QuizEngine.current_questions self)).

(** [QuizEngine.is_quiz_complete] *)
Definition is_quiz_complete (self : QuizEngine.t) : bool :=
  len (QuizEngine.current_questions self) <=? QuizEngine.current_question_index self.

(** [QuizEngine.get_progress] *)
Definition get_progress (self : QuizEngine.t) : Z * Z :=
  (QuizEngine.current_question_index self + 1,
   len (QuizEngine.current_questions self)).

(** The conditional expression that computes the percentage in
    [get_final_result]:
    [(self.score / self.total_marks * 100) if self.total_marks > 0 else 0]. *)
Definition compute_percentage (score total_marks : Z) : outcome pyfloat :=
  if 0 <? total_marks then
    match truediv score total_marks with
    | Return x => Return (times_100 x)
    | Raise e => Raise e
    end
  else Return (Finite 0).

(** [QuizEngine.get_final_result]; [now] is the formatted clock reading that
    [QuizResult.__init__] stores as the time stamp. *)
Definition get_final_result (department difficulty player_name now : string)
  : prog QuizEngine.t QuizResult.t :=
  let! self := get_self in
  let! percentage :=
    lift (compute_percentage (QuizEngine.score self) (QuizEngine.total_marks self)) in
  let result :=
    QuizResult.mk department difficulty (QuizEngine.score self)
                  (QuizEngine.total_marks self) percentage player_name now in
  do! on_high_score_manager (add_score result) in
  ret result.

(** [QuizEngine.get_difficulties]:
    [list(self.all_questions.get(department, {}).keys())].  The list holds
    the keys of the department's dictionary; the order in which Python
    lists them (that of the questions file) is not modelled. *)
Definition get_difficulties (self : QuizEngine.t) (department : string)
  : list string :=
  (map_to_list (default ∅ (QuizEngine.all_questions self !! department))).*1.

(** ** Console front end *)

(** What one round of [ConsoleQuizUI.run_quiz_questions] reads: the time
    that the player took, and the value of [int(user_input)], [None] when
    the conversion raises [ValueError]. *)
Module ConsoleInput.
Record t : Type := mk {
  elapsed : Q;
  typed : option Z
}.
End ConsoleInput.

(** The answer that [run_quiz_questions] submits for a round: [None] when
    the time limit is exceeded or the input is not a number from 1 to the
    number of options, the 0-based index otherwise. *)
Definition console_answer (question : Question.t) (input : ConsoleInput.t)
  : option Z :=
  if Qlt_bool (inject_Z (Question.time_limit question)) (ConsoleInput.elapsed input)
  then None
  else
    match ConsoleInput.typed input with
    | Some answer_num =>
        if (1 <=? answer_num) && (answer_num <=? len (Question.options question))
        then Some (answer_num - 1)
        else None
    | None => None
    end.

(** The loop of [ConsoleQuizUI.run_quiz_questions]; [inputs k] is what the
    [k]-th coming round reads.  The loop runs for at most [fuel] tests of
    its condition and returns whether it has ended within them. *)
Fixpoint run_quiz_questions (fuel : nat) (inputs : nat -> ConsoleInput.t)
  : prog QuizEngine.t bool :=
  match fuel with
  | O => ret false
  | S fuel' =>
      let! self := get_self in
      if is_quiz_complete self then ret true
      else
        let! question := get_current_question in
        match question with
        | None => ret true
        | Some question =>
            let answer := console_answer question (inputs O) in
            do! submit_answer answer in
            do! next_question in
            run_quiz_questions fuel' (fun k => inputs (S k))
        end
  end.

(** * Notions used in the statements *)

(** [x < y] and [x == y] on floats, as propositions. *)
Definition flt (x y : pyfloat) : Prop := fcompare x y = Lt.

Definition feq (x y : pyfloat) : Prop := fcompare x y = Eq.

(** [a <= b] on key tuples, lexicographically. *)
Definition tuple_le (a b : pyfloat * Z) : Prop :=
  flt a.1 b.1 \/ feq a.1 b.1 /\ a.2 <= b.2.

(** [x] may stand before [y] in a list sorted by [key]. *)
Definition key_le {A : Type} (key : A -> pyfloat * Z) (x y : A) : Prop :=
  tuple_le (key x) (key y).

(** The spec's ranking order: [a] may stand before [b] when its percentage
    is higher, or the percentages are equal and its score is not lower. *)
Definition ranks_before (a b : Entry.t) : Prop :=
  flt (Entry.percentage b) (Entry.percentage a) \/
  feq (Entry.percentage a) (Entry.percentage b) /\ Entry.score b <= Entry.score a.

(** The bucket stored under a (department, difficulty) key, if there is one. *)
Definition bucket (h : HighScoreManager.t) (department difficulty : string)
  : option (list Entry.t) :=
  by_diff ← HighScoreManager.scores h !! department; by_diff !! difficulty.

(** The bucket [old] once [add_score] has appended the entry of [result]
    and sorted it, before the truncation to ten entries. *)
Definition inserted (old : list Entry.t) (result : QuizResult.t) : list Entry.t :=
  py_sort sort_key (old ++ [QuizResult.to_dict result]).

(** Every bucket has at most ten entries, in ranking order. *)
Definition store_ok (h : HighScoreManager.t) : Prop :=
  forall department difficulty l,
    bucket h department difficulty = Some l ->
    (length l <= 10)%nat /\ StronglySorted ranks_before l.

(** A sequence of insertions; an insertion that raises leaves the store as
    it has left it and the next one is attempted. *)
Definition add_scores (results : list QuizResult.t) (h : HighScoreManager.t)
  : HighScoreManager.t :=
  fold_left (fun h result => (add_score result h).2) results h.

(** The question under the cursor, if the cursor is on one. *)
Definition current (self : QuizEngine.t) : option Question.t :=
  let i := QuizEngine.current_question_index self in
  if (0 <=? i) && (i <? len (QuizEngine.current_questions self))
  then QuizEngine.current_questions self !! Z.to_nat i
  else None.

(** The question list of the catalogue under a (department, difficulty) key. *)
Definition catalogue (self : QuizEngine.t) (department difficulty : string)
  : option (list QuestionData.t) :=
  by_diff ← QuizEngine.all_questions self !! department; by_diff !! difficulty.

(** [i] is a 0-based index into the options of [q]. *)
Definition valid_index (q : Question.t) (i : Z) : Prop :=
  0 <= i < len (Question.options q).

(** The scoring rules in the words of the specification: a submitted answer
    is the time-out sentinel ([None]) or an option index. *)
Module ScoringRules.
Inductive tag : Type :=
| Timeout
| Correct
| Incorrect.

Definition score (q : Question.t) (submitted : option Z) : Z * tag :=
  match submitted with
  | None => (- Question.negative_marks q, Timeout)
  | Some i =>
      if decide (i = Question.correct_answer q) then (Question.marks q, Correct)
      else (- Question.negative_marks q, Incorrect)
  end.

Definition is_Correct (t : tag) : bool :=
  match t with
  | Correct => true
  | _ => false
  end.
End ScoringRules.

(** The outcome that a feedback message of [submit_answer] reports; the
    fixed message reports that nothing was scored. *)
Definition outcome_of_feedback (fb : feedback) : option ScoringRules.tag :=
  match fb with
  | No_question_available => None
  | Times_up _ => Some ScoringRules.Timeout
  | Correct _ => Some ScoringRules.Correct
  | Wrong _ _ => Some ScoringRules.Incorrect
  end.

(** [n] calls of [next_question] in a row. *)
Definition advance (n : nat) (self : QuizEngine.t) : QuizEngine.t :=
  Nat.iter n (fun s => (next_question s).2) self.

(** The session fields of an engine: questions, cursor, score, total. *)
Definition session (self : QuizEngine.t) : list Question.t * Z * Z * Z :=
  (QuizEngine.current_questions self, QuizEngine.current_question_index self,
   QuizEngine.score self, QuizEngine.total_marks self).

(** The engines that [load_quiz], [submit_answer] and [next_question] reach
    from a new engine. *)
Inductive reachable : QuizEngine.t -> Prop :=
| reachable_init data h : reachable (QuizEngine.init data h)
| reachable_load s department difficulty :
    reachable s -> reachable (load_quiz department difficulty s).2
| reachable_submit s answer :
    reachable s -> reachable (submit_answer answer s).2
| reachable_next s :
    reachable s -> reachable (next_question s).2.

(** The same, when [next_question] is only called on a quiz that is not
    complete, as the loops of both user interfaces do. *)
Inductive reachable_guarded : QuizEngine.t -> Prop :=
| guarded_init data h : reachable_guarded (QuizEngine.init data h)
| guarded_load s department difficulty :
    reachable_guarded s -> reachable_guarded (load_quiz department difficulty s).2
| guarded_submit s answer :
    reachable_guarded s -> reachable_guarded (submit_answer answer s).2
| guarded_next s :
    reachable_guarded s -> is_quiz_complete s = false ->
    reachable_guarded (next_question s).2.

(** The percentage in the words of the specification. *)
Definition spec_percentage (score total_marks : Z) : Q :=
  if decide (total_marks = 0) then 0%Q
  else (inject_Z (100 * score) / inject_Z total_marks)%Q.

(** ** A small catalogue for the examples *)

Definition sample_q1 : QuestionData.t :=
  QuestionData.mk "Q1" ["a"; "b"] 0 30 10 5.

Definition sample_q2 : QuestionData.t :=
  QuestionData.mk "Q2" ["c"; "d"] 1 30 20 10.

Definition sample_catalogue : gmap string (gmap string (list QuestionData.t)) :=
  {[ "Mathematics"%string :=
       {[ "Easy"%string := [sample_q1; sample_q2]; "Hard"%string := [] ]} ]}.

Definition sample_store : HighScoreManager.t :=
  HighScoreManager.mk "high_scores.json" _create_default_structure.

Definition sample_engine : QuizEngine.t :=
  QuizEngine.init sample_catalogue sample_store.

(** The sample engine with the two-question quiz loaded. *)
Definition sample_loaded : QuizEngine.t :=
  (load_quiz "Mathematics" "Easy" sample_engine).2.

(** The two-question quiz played to its end: a correct answer, then a
    time-out. *)
Definition sample_played : QuizEngine.t :=
  (next_question
     (submit_answer None
        (next_question (submit_answer (Some 0) sample_loaded).2).2).2).2.

(** The result of the played sample quiz. *)
Definition sample_result : QuizResult.t :=
  QuizResult.mk "Mathematics" "Easy" 0 30 (Finite 0) "Alice" "2024-01-01 10:00:00".

(** The played sample quiz after a first call of [get_final_result]. *)
Definition sample_finalized : QuizEngine.t :=
  (get_final_result "Mathematics" "Easy" "Alice" "2024-01-01 10:00:00"
                    sample_played).2.

(** A result for a department that the default structure does not have. *)
Definition physics_result : QuizResult.t :=
  QuizResult.mk "Physics" "Easy" 10 10 (Finite 100) "Bob" "2024-01-01 11:00:00".

(** A quiz of 7 and 18 marks without penalties, played to a score of 7 out
    of 25: a correct answer, then a time-out. *)
Definition rounding_q1 : QuestionData.t :=
  QuestionData.mk "R1" ["a"; "b"] 0 30 7 0.

Definition rounding_q2 : QuestionData.t :=
  QuestionData.mk "R2" ["a"; "b"] 0 30 18 0.

Definition rounding_engine : QuizEngine.t :=
  QuizEngine.init
    {[ "Mathematics"%string := {[ "Easy"%string := [rounding_q1; rounding_q2] ]} ]}
    sample_store.

Definition rounding_played : QuizEngine.t :=
  (next_question
     (submit_answer None
        (next_question
           (submit_answer (Some 0)
              (load_quiz "Mathematics" "Easy" rounding_engine).2).2).2).2).2.

(** The sample quiz after a first answer that is out of range: a score of
    -5 out of 30. *)
Definition sample_penalised : QuizEngine.t :=
  (submit_answer (Some 7) sample_loaded).2.

(** ** Notions for the further properties *)

(** The correct index of [q] is one of its options. *)
Definition well_formed (q : Question.t) : Prop :=
  valid_index q (Question.correct_answer q).

(** Neither the marks nor the penalty of [q] are negative. *)
Definition nonneg_marks (q : Question.t) : Prop :=
  0 <= Question.marks q /\ 0 <= Question.negative_marks q.

(** The points that the scoring rules give for a console run through the
    questions [qs], the [k]-th question being answered from [inputs k]. *)
Fixpoint quiz_points (qs : list Question.t) (inputs : nat -> ConsoleInput.t) : Z :=
  match qs with
  | [] => 0
  | q :: qs' =>
      (ScoringRules.score q (console_answer q (inputs O))).1
      + quiz_points qs' (fun k => inputs (S k))
  end.

(** One call of a method of the engine. *)
Inductive step : QuizEngine.t -> QuizEngine.t -> Prop :=
| step_load s department difficulty :
    step s (load_quiz department difficulty s).2
| step_submit s answer :
    step s (submit_answer answer s).2
| step_next s :
    step s (next_question s).2
| step_final s department difficulty player_name now :
    step s (get_final_result department difficulty player_name now s).2.

(** A question whose correct index, 5, is not one of its two options. *)
Definition broken_question : Question.t :=
  Question.mk "Q" ["a"; "b"] 5 30 10 5.

Definition broken_engine : QuizEngine.t :=
  QuizEngine.mk ∅ [broken_question] 0 0 10 sample_store.

(** Console inputs that answer both sample questions correctly, in time. *)
Definition perfect_inputs (k : nat) : ConsoleInput.t :=
  ConsoleInput.mk 3 (Some (Z.of_nat k + 1)).

(** Console inputs that answer the first sample question correctly and let
    the time of the others run out. *)
Definition slow_inputs (k : nat) : ConsoleInput.t :=
  match k with
  | O => ConsoleInput.mk 3 (Some 1)
  | S _ => ConsoleInput.mk 31 (Some 2)
  end.

(** A full bucket of ten entries with the scores 10 down to 1 out of 10. *)
Definition full_bucket : list Entry.t :=
  map (fun s => Entry.mk "Alice" s 10 (Finite (inject_Z (10 * s)))
                         "2024-01-01 10:00:00")
      [10; 9; 8; 7; 6; 5; 4; 3; 2; 1].

Definition full_store : HighScoreManager.t :=
  HighScoreManager.mk "high_scores.json"
    {[ "Mathematics"%string := {[ "Easy"%string := full_bucket ]} ]}.

(** A result that ties with the last entry of the full bucket, and one that
    beats its fifth entry. *)
Definition tying_result : QuizResult.t :=
  QuizResult.mk "Mathematics" "Easy" 1 10 (Finite 10) "Bob"
                "2024-01-02 10:00:00".

Definition better_result : QuizResult.t :=
  QuizResult.mk "Mathematics" "Easy" 13 20 (Finite 65) "Bob"
                "2024-01-02 10:00:00".

(** A quiz of one question with a penalty of [10 ^ 400], timed out: a score
    of [- 10 ^ 400] out of 1. *)
Definition overflow_q : QuestionData.t :=
  QuestionData.mk "O" ["a"; "b"] 0 30 1 (10 ^ 400).

Definition overflow_engine : QuizEngine.t :=
  QuizEngine.init
    {[ "Mathematics"%string := {[ "Easy"%string := [overflow_q] ]} ]}
    sample_store.

Definition overflow_played : QuizEngine.t :=
  (next_question
     (submit_answer None
        (load_quiz "Mathematics" "Easy" overflow_engine).2).2).2.

(** * Properties *)

(** ** The order of the sort keys *)

Lemma Qlt_bool_iff (x y : Q) : Qlt_bool x y = true <-> (x < y)%Q.
Proof.
  unfold Qlt_bool. rewrite negb_true_iff.
  destruct (Qle_bool y x) eqn:E.
  - apply Qle_bool_iff in E. split; [discriminate|].
    intros H. exfalso. exact (Qlt_not_le _ _ H E).
  - split; [intros _|reflexivity].
    apply Qnot_le_lt. intros H. apply Qle_bool_iff in H. congruence.
Qed.

Lemma Qcompare_opp (a b : Q) : (- a ?= - b)%Q = (b ?= a)%Q.
Proof.
  unfold Qcompare, Qopp. simpl.
  rewrite !Z.mul_opp_l, Z.compare_opp. reflexivity.
Qed.

Lemma fcompare_antisym (x y : pyfloat) : fcompare y x = CompOpp (fcompare x y).
Proof.
  destruct x as [a| |], y as [b| |]; simpl; try reflexivity.
  symmetry. apply Qcompare_antisym.
Qed.

Lemma fcompare_fneg (x y : pyfloat) : fcompare (fneg x) (fneg y) = fcompare y x.
Proof.
  destruct x as [a| |], y as [b| |]; simpl; try reflexivity.
  apply Qcompare_opp.
Qed.

Lemma feq_sym (x y : pyfloat) : feq x y -> feq y x.
Proof. unfold feq. intros H. rewrite fcompare_antisym, H. reflexivity. Qed.

Lemma flt_trans (x y z : pyfloat) : flt x y -> flt y z -> flt x z.
Proof.
  unfold flt. destruct x as [a| |], y as [b| |], z as [c| |]; simpl;
    try discriminate; try reflexivity.
  rewrite <- !Qlt_alt. apply Qlt_trans.
Qed.

Lemma feq_trans (x y z : pyfloat) : feq x y -> feq y z -> feq x z.
Proof.
  unfold feq. destruct x as [a| |], y as [b| |], z as [c| |]; simpl;
    try discriminate; try reflexivity.
  rewrite <- !Qeq_alt. apply Qeq_trans.
Qed.

Lemma flt_feq_trans (x y z : pyfloat) : flt x y -> feq y z -> flt x z.
Proof.
  unfold flt, feq. destruct x as [a| |], y as [b| |], z as [c| |]; simpl;
    try discriminate; try reflexivity.
  rewrite <- !Qlt_alt, <- Qeq_alt. intros H1 H2. rewrite <- H2. exact H1.
Qed.

Lemma feq_flt_trans (x y z : pyfloat) : feq x y -> flt y z -> flt x z.
Proof.
  unfold flt, feq. destruct x as [a| |], y as [b| |], z as [c| |]; simpl;
    try discriminate; try reflexivity.
  rewrite <- !Qlt_alt, <- Qeq_alt. intros H1 H2. rewrite H1. exact H2.
Qed.

Lemma tuple_lt_false (a b : pyfloat * Z) : tuple_lt b a = false <-> tuple_le a b.
Proof.
  unfold tuple_lt, tuple_le, feq_bool, flt_bool, flt, feq.
  rewrite (fcompare_antisym b.1 a.1).
  destruct (fcompare b.1 a.1); simpl.
  - rewrite Z.ltb_ge. split.
    + intros H. right. split; [reflexivity | exact H].
    + intros [H | [_ H]]; [discriminate | exact H].
  - split; [discriminate|]. intros [H | [H _]]; discriminate.
  - split; [intros _; left; reflexivity | reflexivity].
Qed.

Lemma tuple_lt_true (a b : pyfloat * Z) : tuple_lt a b = true -> tuple_le a b.
Proof.
  unfold tuple_lt, tuple_le, feq_bool, flt_bool, flt, feq.
  destruct (fcompare a.1 b.1); simpl.
  - rewrite Z.ltb_lt. intros H. right. split; [reflexivity | lia].
  - intros _. left. reflexivity.
  - discriminate.
Qed.

Lemma tuple_le_trans (a b c : pyfloat * Z) :
  tuple_le a b -> tuple_le b c -> tuple_le a c.
Proof.
  unfold tuple_le. intros [H1 | [H1 H1']] [H2 | [H2 H2']].
  - left. exact (flt_trans _ _ _ H1 H2).
  - left. exact (flt_feq_trans _ _ _ H1 H2).
  - left. exact (feq_flt_trans _ _ _ H1 H2).
  - right. split; [exact (feq_trans _ _ _ H1 H2) | lia].
Qed.

Section py_sort_facts.
Context {A : Type} (key : A -> pyfloat * Z).

Lemma insort_Permutation (x : A) (l : list A) : insort key x l ≡ₚ x :: l.
  Proof.
    induction l as [|y l IH]; simpl; [reflexivity|].
    destruct (tuple_lt (key x) (key y)); [reflexivity|].
    rewrite IH. apply perm_swap.
  Qed.

Lemma insort_StronglySorted (x : A) (l : list A) :
    StronglySorted (key_le key) l -> StronglySorted (key_le key) (insort key x l).
  Proof.
    induction l as [|y l IH]; simpl; intros Hs.
    - repeat constructor.
    - inversion Hs as [|? ? Hl Hy]; subst.
      destruct (tuple_lt (key x) (key y)) eqn:E.
      + constructor; [exact Hs|]. apply tuple_lt_true in E.
        constructor; [exact E|].
        eapply Forall_impl; [exact Hy|].
        intros z Hz. exact (tuple_le_trans _ _ _ E Hz).
      + constructor; [exact (IH Hl)|].
        rewrite (insort_Permutation x l). constructor; [|exact Hy].
        apply tuple_lt_false. exact E.
  Qed.

Lemma fold_insort_Permutation (l acc : list A) :
    fold_left (fun acc x => insort key x acc) l acc ≡ₚ acc ++ l.
  Proof.
    revert acc. induction l as [|x l IH]; intros acc; simpl.
    - rewrite app_nil_r. reflexivity.
    - rewrite IH, insort_Permutation.
      change (x :: acc) with ([x] ++ acc).
      rewrite (Permutation_app_comm [x] acc), <- app_assoc. reflexivity.
  Qed.

Lemma fold_insort_StronglySorted (l acc : list A) :
    StronglySorted (key_le key) acc ->
    StronglySorted (key_le key) (fold_left (fun acc x => insort key x acc) l acc).
  Proof.
    revert acc. induction l as [|x l IH]; intros acc Hs; simpl; [exact Hs|].
    apply IH, insort_StronglySorted, Hs.
  Qed.

Lemma py_sort_Permutation (l : list A) : py_sort key l ≡ₚ l.
  Proof. unfold py_sort. rewrite fold_insort_Permutation. reflexivity. Qed.

Lemma py_sort_StronglySorted (l : list A) : StronglySorted (key_le key) (py_sort key l).
  Proof. apply fold_insort_StronglySorted. constructor. Qed.

Lemma py_sort_length (l : list A) : length (py_sort key l) = length l.
  Proof. apply Permutation_length, py_sort_Permutation. Qed.

Lemma take_StronglySorted (n : nat) (l : list A) :
    StronglySorted (key_le key) l -> StronglySorted (key_le key) (take n l).
  Proof.
    revert n. induction l as [|x l IH]; intros [|n] Hs; simpl; try constructor.
    - apply IH. inversion Hs; assumption.
    - inversion Hs as [|? ? _ Hx]; subst.
      apply Forall_forall. intros y Hy.
      rewrite Forall_forall in Hx. apply Hx.
      eapply subseteq_take. exact Hy.
  Qed.
End py_sort_facts.

(** ** The leaderboard store *)

Lemma sort_key_ranks (a b : Entry.t) : key_le sort_key a b <-> ranks_before a b.
Proof.
  unfold key_le, tuple_le, ranks_before, sort_key, flt, feq; simpl.
  rewrite fcompare_fneg.
  split; (intros [H | [H1 H2]]; [left; exact H | right]).
  - split; [apply feq_sym; exact H1 | lia].
  - split; [apply feq_sym; exact H1 | lia].
Qed.

Lemma StronglySorted_mono {A : Type} (R R' : A -> A -> Prop) (l : list A) :
  (forall x y, R x y -> R' x y) -> StronglySorted R l -> StronglySorted R' l.
Proof.
  intros HR. induction 1 as [|x l _ IH Hx]; constructor; [exact IH|].
  eapply Forall_impl; [exact Hx|]. intros y. apply HR.
Qed.

Lemma inserted_ranked (n : nat) (old : list Entry.t) (result : QuizResult.t) :
  StronglySorted ranks_before (take n (inserted old result)).
Proof.
  apply (StronglySorted_mono (key_le sort_key)).
  - intros x y. apply sort_key_ranks.
  - apply take_StronglySorted, py_sort_StronglySorted.
Qed.

Lemma inserted_Permutation (old : list Entry.t) (result : QuizResult.t) :
  inserted old result ≡ₚ QuizResult.to_dict result :: old.
Proof.
  unfold inserted. rewrite py_sort_Permutation.
  symmetry. apply Permutation_cons_append.
Qed.

(** [add_score] in one equation. *)
Lemma add_score_eq (result : QuizResult.t) (h : HighScoreManager.t) :
  add_score result h =
  match HighScoreManager.scores h !! QuizResult.department result with
  | None => (Raise KeyError, h)
  | Some by_diff =>
      match by_diff !! QuizResult.difficulty result with
      | None => (Raise KeyError, h)
      | Some old =>
          (Return tt,
           HighScoreManager.mk (HighScoreManager.filename h)
             (<[QuizResult.department result :=
                  <[QuizResult.difficulty result := take 10 (inserted old result)]>
                    by_diff]> (HighScoreManager.scores h)))
      end
  end.
Proof.
  unfold add_score, bind, get_self, lift, set_self, dict_getitem, inserted.
  destruct (HighScoreManager.scores h !! QuizResult.department result) as [by_diff|];
    [|reflexivity].
  destruct (by_diff !! QuizResult.difficulty result); reflexivity.
Qed.

Lemma add_score_absent (result : QuizResult.t) (h : HighScoreManager.t) :
  bucket h (QuizResult.department result) (QuizResult.difficulty result) = None ->
  add_score result h = (Raise KeyError, h).
Proof.
  rewrite add_score_eq. unfold bucket.
  destruct (HighScoreManager.scores h !! QuizResult.department result) as [by_diff|];
    simpl; [|reflexivity].
  intros ->. reflexivity.
Qed.

Lemma add_score_present (result : QuizResult.t) (h : HighScoreManager.t)
      (old : list Entry.t) :
  bucket h (QuizResult.department result) (QuizResult.difficulty result) = Some old ->
  exists h',
    add_score result h = (Return tt, h') /\
    HighScoreManager.filename h' = HighScoreManager.filename h /\
    forall department difficulty,
      bucket h' department difficulty =
      if decide (department = QuizResult.department result /\
                 difficulty = QuizResult.difficulty result)
      then Some (take 10 (inserted old result))
      else bucket h department difficulty.
Proof.
  rewrite add_score_eq. unfold bucket.
  destruct (HighScoreManager.scores h !! QuizResult.department result)
    as [by_diff|] eqn:Hd; simpl; [|discriminate].
  intros Hf. rewrite Hf. eexists. split; [reflexivity|]. split; [reflexivity|].
  intros department difficulty. simpl.
  destruct (decide (department = QuizResult.department result)) as [->|Hne].
  - rewrite lookup_insert_eq. simpl.
    destruct (decide (difficulty = QuizResult.difficulty result)) as [->|Hne'].
    + rewrite lookup_insert_eq. rewrite decide_True by done. reflexivity.
    + rewrite lookup_insert_ne by done. rewrite decide_False by tauto.
      rewrite Hd. reflexivity.
  - rewrite lookup_insert_ne by done. rewrite decide_False by tauto.
    reflexivity.
Qed.

Lemma add_score_store_ok (result : QuizResult.t) (h : HighScoreManager.t) :
  store_ok h -> store_ok (add_score result h).2.
Proof.
  intros Hok.
  destruct (bucket h (QuizResult.department result) (QuizResult.difficulty result))
    as [old|] eqn:Hb.
  - destruct (add_score_present _ _ _ Hb) as (h' & -> & _ & Hh'). simpl.
    intros department difficulty l. rewrite Hh'. case_decide.
    + intros [= <-]. split; [|apply inserted_ranked].
      rewrite length_take. lia.
    + apply Hok.
  - rewrite (add_score_absent _ _ Hb). exact Hok.
Qed.

Lemma add_scores_store_ok (results : list QuizResult.t) (h : HighScoreManager.t) :
  store_ok h -> store_ok (add_scores results h).
Proof.
  revert h. induction results as [|r results IH]; intros h Hok; simpl; [exact Hok|].
  apply IH, add_score_store_ok, Hok.
Qed.

Lemma default_bucket (department difficulty : string) (l : list Entry.t) :
  default (∅ : gmap string (list Entry.t))
          (_create_default_structure !! department) !! difficulty = Some l ->
  l = [].
Proof.
  unfold _create_default_structure, default_departments, default_difficulties.
  simpl. intros Hl.
  repeat (rewrite lookup_insert in Hl; destruct (decide (_ = department)); simpl in Hl);
    try (rewrite lookup_empty in Hl; simpl in Hl);
    repeat (rewrite lookup_insert in Hl; destruct (decide (_ = difficulty)); simpl in Hl);
    try (rewrite lookup_empty in Hl); congruence.
Qed.

Lemma default_store_ok (filename : string) :
  store_ok (HighScoreManager.mk filename _create_default_structure).
Proof.
  intros department difficulty l Hb.
  assert (l = []) as ->; [|split; [simpl; lia | constructor]].
  apply (default_bucket department difficulty). revert Hb. unfold bucket. simpl.
  destruct (_create_default_structure !! department); simpl; [done | discriminate].
Qed.

(** ** The quiz session *)

Lemma list_getitem_in_range {A : Type} (l : list A) (i : Z) :
  0 <= i < len l ->
  exists a, l !! Z.to_nat i = Some a /\ list_getitem l i = Return a.
Proof.
  unfold len, list_getitem. intros Hi.
  destruct (lookup_lt_is_Some_2 l (Z.to_nat i)) as [a Ha]; [lia|].
  exists a. split; [exact Ha|].
  replace (i <? 0) with false by lia.
  replace ((0 <=? i) && (i <? Z.of_nat (length l))) with true by lia.
  rewrite Ha. reflexivity.
Qed.

Lemma get_current_question_eq (self : QuizEngine.t) :
  get_current_question self = (Return (current self), self).
Proof.
  unfold get_current_question, current, bind, get_self, lift, ret.
  destruct ((0 <=? QuizEngine.current_question_index self) &&
            (QuizEngine.current_question_index self
               <? len (QuizEngine.current_questions self))) eqn:E; [|reflexivity].
  destruct (list_getitem_in_range (QuizEngine.current_questions self)
              (QuizEngine.current_question_index self)) as (q & Hq & ->); [lia|].
  rewrite Hq. reflexivity.
Qed.

Lemma current_None (self : QuizEngine.t) :
  current self = None <->
  ~ (0 <= QuizEngine.current_question_index self
       < len (QuizEngine.current_questions self)).
Proof.
  unfold current.
  destruct ((0 <=? QuizEngine.current_question_index self) &&
            (QuizEngine.current_question_index self
               <? len (QuizEngine.current_questions self))) eqn:E.
  - destruct (list_getitem_in_range (QuizEngine.current_questions self)
                (QuizEngine.current_question_index self)) as (q & -> & _); [lia|].
    split; [discriminate | lia].
  - split; [lia | reflexivity].
Qed.

Lemma submit_answer_no_current (self : QuizEngine.t) (answer : option Z) :
  current self = None ->
  submit_answer answer self = (Return (false, 0, No_question_available), self).
Proof.
  intros H. unfold submit_answer, bind. rewrite get_current_question_eq, H.
  reflexivity.
Qed.

Lemma submit_answer_timeout (self : QuizEngine.t) (q : Question.t) :
  current self = Some q ->
  submit_answer None self =
  (Return (false, - Question.negative_marks q, Times_up (Question.negative_marks q)),
   QuizEngine.with_score self (QuizEngine.score self - Question.negative_marks q)).
Proof.
  intros H. unfold submit_answer, bind. rewrite get_current_question_eq, H.
  reflexivity.
Qed.

Lemma submit_answer_right (self : QuizEngine.t) (q : Question.t) (i : Z) :
  current self = Some q ->
  i = Question.correct_answer q ->
  submit_answer (Some i) self =
  (Return (true, Question.marks q, Correct (Question.marks q)),
   QuizEngine.with_score self (QuizEngine.score self + Question.marks q)).
Proof.
  intros H ->. unfold submit_answer, bind. rewrite get_current_question_eq, H.
  unfold Question.is_correct. rewrite Z.eqb_refl. reflexivity.
Qed.

Lemma submit_answer_wrong (self : QuizEngine.t) (q : Question.t) (i : Z) :
  current self = Some q ->
  valid_index q (Question.correct_answer q) ->
  i <> Question.correct_answer q ->
  exists correct_option,
    Question.options q !! Z.to_nat (Question.correct_answer q) = Some correct_option /\
    submit_answer (Some i) self =
    (Return (false, - Question.negative_marks q,
             Wrong correct_option (Question.negative_marks q)),
     QuizEngine.with_score self (QuizEngine.score self - Question.negative_marks q)).
Proof.
  intros H Hc Hne. unfold submit_answer, bind. rewrite get_current_question_eq, H.
  unfold Question.is_correct. replace (i =? Question.correct_answer q) with false by lia.
  destruct (list_getitem_in_range (Question.options q) (Question.correct_answer q) Hc)
    as (o & Ho & Hg).
  exists o. split; [exact Ho|].
  unfold add_points, bind, get_self, set_self, lift, ret. rewrite Hg. reflexivity.
Qed.

Lemma sample_loaded_current :
  current sample_loaded = Some (build_question sample_q1).
Proof. reflexivity. Qed.

(** ** Scoring *)

(** C1.  With a current question [q] whose correct index is a valid option
    index, [submit_answer] on the time-out sentinel or on a valid option
    index returns the delta and the outcome of the scoring rules (minus the
    penalty and Timeout for the sentinel, plus the reward and Correct for
    the correct index, minus the penalty and Incorrect for another valid
    index), and adds exactly that delta to the running score. *)
Theorem submit_answer_scoring (self : QuizEngine.t) (q : Question.t)
        (answer : option Z) :
  current self = Some q ->
  valid_index q (Question.correct_answer q) ->
  (forall i, answer = Some i -> valid_index q i) ->
  exists fb,
    submit_answer answer self =
      (Return (ScoringRules.is_Correct (ScoringRules.score q answer).2,
               (ScoringRules.score q answer).1, fb),
       QuizEngine.with_score self
         (QuizEngine.score self + (ScoringRules.score q answer).1)) /\
    outcome_of_feedback fb = Some (ScoringRules.score q answer).2.
Proof.
  intros Hq Hc _. destruct answer as [i|]; simpl.
  - destruct (decide (i = Question.correct_answer q)) as [Heq|Hne]; simpl.
    + eexists. split; [apply (submit_answer_right _ _ _ Hq Heq) | reflexivity].
    + destruct (submit_answer_wrong _ _ _ Hq Hc Hne) as (o & _ & Hs).
      eexists. split; [exact Hs | reflexivity].
  - eexists. split; [apply (submit_answer_timeout _ _ Hq) | reflexivity].
Qed.

Lemma submit_answer_scoring_witness :
  exists fb,
    submit_answer (Some 1) sample_loaded =
      (Return (false, -5, fb), QuizEngine.with_score sample_loaded (-5)) /\
    outcome_of_feedback fb = Some ScoringRules.Incorrect.
Proof.
  apply (submit_answer_scoring sample_loaded (build_question sample_q1) (Some 1)).
  - reflexivity.
  - unfold valid_index, len. simpl. lia.
  - intros i [= <-]. unfold valid_index, len. simpl. lia.
Defined.

(** C4, as the code has it.  An answer that is not the sentinel and is out
    of the option range is not rejected: with a current question whose
    correct index is valid it is scored like a wrong answer, the penalty is
    subtracted and the feedback is the one of a wrong answer. *)
Theorem submit_answer_out_of_range (self : QuizEngine.t) (q : Question.t) (i : Z) :
  current self = Some q ->
  valid_index q (Question.correct_answer q) ->
  ~ valid_index q i ->
  exists correct_option,
    Question.options q !! Z.to_nat (Question.correct_answer q) = Some correct_option /\
    submit_answer (Some i) self =
      (Return (false, - Question.negative_marks q,
               Wrong correct_option (Question.negative_marks q)),
       QuizEngine.with_score self (QuizEngine.score self - Question.negative_marks q)).
Proof.
  intros Hq Hc Hi. apply (submit_answer_wrong _ _ _ Hq Hc).
  intros ->. exact (Hi Hc).
Qed.

Lemma submit_answer_out_of_range_witness :
  exists correct_option,
    Question.options (build_question sample_q1) !! Z.to_nat 0 = Some correct_option /\
    submit_answer (Some 7) sample_loaded =
      (Return (false, -5, Wrong correct_option 5),
       QuizEngine.with_score sample_loaded (0 - 5)).
Proof.
  apply (submit_answer_out_of_range sample_loaded (build_question sample_q1) 7).
  - reflexivity.
  - unfold valid_index, len. simpl. lia.
  - unfold valid_index, len. simpl. lia.
Defined.

(** C4, as stated, fails: on the first sample question, which has two
    options, the answer 7 is neither the sentinel nor an option index, and
    [submit_answer] returns normally and subtracts the penalty. *)
Lemma out_of_range_answer_is_scored :
  current sample_loaded = Some (build_question sample_q1) /\
  ~ valid_index (build_question sample_q1) 7 /\
  (submit_answer (Some 7) sample_loaded).1 = Return (false, -5, Wrong "a" 5) /\
  QuizEngine.score sample_loaded = 0 /\
  QuizEngine.score (submit_answer (Some 7) sample_loaded).2 = -5.
Proof.
  split; [reflexivity|]. split; [unfold valid_index, len; simpl; lia|].
  repeat split; reflexivity.
Qed.

(** C8, as the code has it.  When the cursor is at or past the end of the
    question list there is no current question, and [submit_answer] does
    not fail: for every answer it returns normally, with the ordinary
    result tuple of an answer that is not correct and earns no points and
    the "No question available" text as feedback; it raises no error, and
    neither the score nor anything else changes. *)
Theorem submit_answer_no_active_question (self : QuizEngine.t) (answer : option Z) :
  len (QuizEngine.current_questions self) <= QuizEngine.current_question_index self ->
  get_current_question self = (Return None, self) /\
  submit_answer answer self = (Return (false, 0, No_question_available), self) /\
  (forall x s', submit_answer answer self <> (Raise x, s')).
Proof.
  intros H.
  assert (current self = None) as Hc by (apply current_None; lia).
  split; [|split].
  - rewrite get_current_question_eq, Hc. reflexivity.
  - apply submit_answer_no_current, Hc.
  - intros x s'. rewrite (submit_answer_no_current _ _ Hc). discriminate.
Qed.

Lemma submit_answer_no_active_question_witness :
  get_current_question sample_played = (Return None, sample_played) /\
  submit_answer (Some 0) sample_played =
    (Return (false, 0, No_question_available), sample_played) /\
  (forall x s', submit_answer (Some 0) sample_played <> (Raise x, s')).
Proof.
  apply (submit_answer_no_active_question sample_played (Some 0)).
  vm_compute. discriminate.
Defined.

(** C8, as stated, fails: on the played sample quiz the cursor, 2, is at
    the end of the two questions, and [submit_answer] returns a result
    tuple instead of failing; the tuple starts like the one of a wrong
    answer to a question without penalty, not correct and no points. *)
Lemma no_question_is_an_ordinary_return :
  QuizEngine.current_question_index sample_played = 2 /\
  len (QuizEngine.current_questions sample_played) = 2 /\
  submit_answer None sample_played =
    (Return (false, 0, No_question_available), sample_played) /\
  (submit_answer (Some 1) (load_quiz "Mathematics" "Easy" rounding_engine).2).1 =
    Return (false, 0, Wrong "a" 0).
Proof. repeat split; vm_compute; reflexivity. Qed.

(** The "No question available" feedback is only returned when there is no
    current question, so that the caller can tell it from a scored answer. *)
Lemma no_question_feedback_only_without_question (self s' : QuizEngine.t)
      (answer : option Z) (b : bool) (points : Z) :
  submit_answer answer self = (Return (b, points, No_question_available), s') ->
  current self = None.
Proof.
  destruct (current self) as [q|] eqn:Hq; [|reflexivity].
  unfold submit_answer, bind. rewrite get_current_question_eq, Hq.
  destruct answer as [i|]; simpl.
  - destruct (Question.is_correct q i); simpl; [discriminate|].
    unfold lift.
    destruct (list_getitem (Question.options q) (Question.correct_answer q));
      simpl; discriminate.
  - discriminate.
Qed.

(** ** Loading a quiz *)

Lemma dict_contains_lookup {V : Type} (d : gmap string V) (k : string) :
  dict_contains d k = match d !! k with Some _ => true | None => false end.
Proof.
  unfold dict_contains. destruct (d !! k) eqn:E.
  - apply bool_decide_eq_true. eauto.
  - apply bool_decide_eq_false. intros [v Hv]. discriminate.
Qed.

(** [load_quiz] in one equation. *)
Lemma load_quiz_eq (self : QuizEngine.t) (department difficulty : string) :
  load_quiz department difficulty self =
  match catalogue self department difficulty with
  | None => (Return false, self)
  | Some question_data =>
      (Return true,
       QuizEngine.with_quiz self (map build_question question_data) 0 0
         (py_sum (map Question.marks (map build_question question_data))))
  end.
Proof.
  unfold load_quiz, catalogue, bind, get_self, lift, ret, set_self, dict_getitem.
  rewrite dict_contains_lookup.
  destruct (QuizEngine.all_questions self !! department) as [by_diff|]; simpl;
    [|reflexivity].
  rewrite dict_contains_lookup.
  destruct (by_diff !! difficulty); reflexivity.
Qed.

Lemma py_sum_from (l : list Z) (a : Z) : fold_left Z.add l a = a + foldr Z.add 0 l.
Proof.
  revert a. induction l as [|x l IH]; intros a; simpl; [lia|].
  rewrite IH. lia.
Qed.

Lemma py_sum_foldr (l : list Z) : py_sum l = foldr Z.add 0 l.
Proof. unfold py_sum. rewrite py_sum_from. lia. Qed.

(** C5, as the code has it.  [load_quiz] returns [False] and changes
    nothing when the department or the difficulty is unknown.  For every
    known key, an empty question list included, it returns [True] and sets
    the questions, position 0, score 0 and the sum of the questions' marks
    as total marks; with an empty list the total is 0 and the quiz is
    complete at once. *)
Theorem load_quiz_outcome (self : QuizEngine.t) (department difficulty : string) :
  (catalogue self department difficulty = None ->
   load_quiz department difficulty self = (Return false, self)) /\
  (forall question_data,
     catalogue self department difficulty = Some question_data ->
     exists loaded,
       load_quiz department difficulty self = (Return true, loaded) /\
       QuizEngine.current_questions loaded = map build_question question_data /\
       QuizEngine.current_question_index loaded = 0 /\
       QuizEngine.score loaded = 0 /\
       QuizEngine.total_marks loaded =
         foldr Z.add 0 (map QuestionData.marks question_data) /\
       (question_data = [] ->
        QuizEngine.total_marks loaded = 0 /\ is_quiz_complete loaded = true)).
Proof.
  rewrite load_quiz_eq. split.
  - intros ->. reflexivity.
  - intros question_data ->. eexists. split; [reflexivity|]. simpl.
    do 3 (split; [reflexivity|]). split.
    + rewrite py_sum_foldr, map_map. reflexivity.
    + intros ->. split; reflexivity.
Qed.

Lemma load_quiz_outcome_witness :
  load_quiz "Physics" "Easy" sample_engine = (Return false, sample_engine) /\
  exists loaded,
    load_quiz "Mathematics" "Easy" sample_engine = (Return true, loaded) /\
    QuizEngine.current_questions loaded =
      map build_question [sample_q1; sample_q2] /\
    QuizEngine.current_question_index loaded = 0 /\
    QuizEngine.score loaded = 0 /\
    QuizEngine.total_marks loaded = 30 /\
    ([sample_q1; sample_q2] = [] ->
     QuizEngine.total_marks loaded = 0 /\ is_quiz_complete loaded = true).
Proof.
  split.
  - apply (proj1 (load_quiz_outcome sample_engine "Physics" "Easy")). reflexivity.
  - apply (proj2 (load_quiz_outcome sample_engine "Mathematics" "Easy")
                 [sample_q1; sample_q2]).
    reflexivity.
Defined.

(** C5, as stated, fails: the key (Mathematics, Hard) of the sample
    catalogue resolves to an empty list, and [load_quiz] succeeds on it. *)
Lemma load_quiz_empty_list_succeeds :
  catalogue sample_engine "Mathematics" "Hard" = Some [] /\
  load_quiz "Mathematics" "Hard" sample_engine =
    (Return true, QuizEngine.with_quiz sample_engine [] 0 0 0).
Proof. split; reflexivity. Qed.

(** ** Advancing *)

Lemma next_question_eq (self : QuizEngine.t) :
  next_question self =
  (Return (QuizEngine.current_question_index self + 1
             <? len (QuizEngine.current_questions self)),
   QuizEngine.with_index self (QuizEngine.current_question_index self + 1)).
Proof. reflexivity. Qed.

Lemma advance_eq (n : nat) (self : QuizEngine.t) :
  advance n self =
  QuizEngine.with_index self (QuizEngine.current_question_index self + Z.of_nat n).
Proof.
  induction n as [|n IH].
  - destruct self. unfold QuizEngine.with_index. simpl. f_equal. lia.
  - unfold advance in *. rewrite Nat.iter_succ, IH, next_question_eq.
    unfold QuizEngine.with_index. simpl. f_equal. lia.
Qed.

(** C6, as the code has it.  From a session that [load_quiz] has just
    loaded with N questions, the session is not complete after fewer than N
    calls of [next_question] and is complete after exactly N calls, with
    the position at N.  One more call returns [False] and leaves the
    questions, the score and the total marks as they are, and the session
    complete, but it moves the position to N + 1. *)
Theorem advance_to_completion (self loaded : QuizEngine.t)
        (department difficulty : string) :
  load_quiz department difficulty self = (Return true, loaded) ->
  let N := length (QuizEngine.current_questions loaded) in
  (forall k, (k < N)%nat -> is_quiz_complete (advance k loaded) = false) /\
  is_quiz_complete (advance N loaded) = true /\
  QuizEngine.current_question_index (advance N loaded) = Z.of_nat N /\
  next_question (advance N loaded) =
    (Return false, QuizEngine.with_index (advance N loaded) (Z.of_nat N + 1)) /\
  is_quiz_complete (next_question (advance N loaded)).2 = true /\
  session (next_question (advance N loaded)).2 =
    (QuizEngine.current_questions loaded, Z.of_nat N + 1,
     QuizEngine.score loaded, QuizEngine.total_marks loaded).
Proof.
  rewrite load_quiz_eq.
  destruct (catalogue self department difficulty) as [question_data|];
    [|discriminate].
  intros [= <-]. intros N.
  assert (forall k, QuizEngine.current_question_index
                      (advance k (QuizEngine.with_quiz self
                         (map build_question question_data) 0 0
                         (py_sum (map Question.marks
                                      (map build_question question_data)))))
                    = Z.of_nat k) as Hidx.
  { intros k. rewrite advance_eq. simpl. lia. }
  assert (forall k, QuizEngine.current_questions
                      (advance k (QuizEngine.with_quiz self
                         (map build_question question_data) 0 0
                         (py_sum (map Question.marks
                                      (map build_question question_data)))))
                    = map build_question question_data) as Hqs.
  { intros k. rewrite advance_eq. reflexivity. }
  repeat split.
  - intros k Hk. unfold is_quiz_complete, len. rewrite Hidx, Hqs.
    subst N. simpl in Hk. lia.
  - unfold is_quiz_complete, len. rewrite Hidx, Hqs. subst N. simpl. lia.
  - apply Hidx.
  - rewrite next_question_eq, Hidx. f_equal. f_equal. unfold len. rewrite Hqs.
    subst N. simpl. lia.
  - rewrite next_question_eq. unfold is_quiz_complete, len. simpl.
    rewrite Hidx, Hqs. subst N. simpl. lia.
  - rewrite next_question_eq. unfold session. simpl. rewrite Hidx, Hqs.
    rewrite advance_eq. reflexivity.
Qed.

Lemma advance_to_completion_witness :
  (forall k, (k < 2)%nat -> is_quiz_complete (advance k sample_loaded) = false) /\
  is_quiz_complete (advance 2 sample_loaded) = true /\
  QuizEngine.current_question_index (advance 2 sample_loaded) = 2 /\
  next_question (advance 2 sample_loaded) =
    (Return false, QuizEngine.with_index (advance 2 sample_loaded) 3) /\
  is_quiz_complete (next_question (advance 2 sample_loaded)).2 = true /\
  session (next_question (advance 2 sample_loaded)).2 =
    (QuizEngine.current_questions sample_loaded, 3, 0, 30).
Proof.
  apply (advance_to_completion sample_engine sample_loaded "Mathematics" "Easy").
  reflexivity.
Defined.

(** C6, as stated, fails: after the two calls that complete the sample
    quiz, the third call of [next_question] returns [False] but changes the
    session, whose position goes from 2 to 3. *)
Lemma third_advance_moves_position :
  is_quiz_complete (advance 2 sample_loaded) = true /\
  (next_question (advance 2 sample_loaded)).1 = Return false /\
  QuizEngine.current_question_index (advance 2 sample_loaded) = 2 /\
  QuizEngine.current_question_index (next_question (advance 2 sample_loaded)).2 = 3 /\
  (next_question (advance 2 sample_loaded)).2 <> advance 2 sample_loaded.
Proof.
  repeat split; try reflexivity.
  intros H. apply (f_equal QuizEngine.current_question_index) in H.
  vm_compute in H. discriminate.
Qed.

(** ** The position invariant *)

(** [submit_answer] changes the score only, also when it raises. *)
Lemma submit_answer_keeps_position (self : QuizEngine.t) (answer : option Z) :
  QuizEngine.current_questions (submit_answer answer self).2 =
    QuizEngine.current_questions self /\
  QuizEngine.current_question_index (submit_answer answer self).2 =
    QuizEngine.current_question_index self.
Proof.
  unfold submit_answer, bind. rewrite get_current_question_eq.
  destruct (current self) as [q|]; [|split; reflexivity].
  destruct answer as [i|]; simpl; [|split; reflexivity].
  destruct (Question.is_correct q i); simpl; [split; reflexivity|].
  unfold lift.
  destruct (list_getitem (Question.options q) (Question.correct_answer q));
    split; reflexivity.
Qed.

Lemma load_quiz_position (self : QuizEngine.t) (department difficulty : string) :
  (load_quiz department difficulty self).2 = self \/
  QuizEngine.current_question_index (load_quiz department difficulty self).2 = 0.
Proof.
  rewrite load_quiz_eq.
  destruct (catalogue self department difficulty); [right | left]; reflexivity.
Qed.

Lemma reachable_position (s : QuizEngine.t) :
  reachable s -> 0 <= QuizEngine.current_question_index s.
Proof.
  induction 1 as [data h | s department difficulty _ IH | s answer _ IH | s _ IH].
  - simpl. lia.
  - destruct (load_quiz_position s department difficulty) as [-> | ->]; [exact IH | lia].
  - destruct (submit_answer_keeps_position s answer) as [_ ->]. exact IH.
  - rewrite next_question_eq. simpl. lia.
Qed.

Lemma guarded_position (s : QuizEngine.t) :
  reachable_guarded s ->
  0 <= QuizEngine.current_question_index s <= len (QuizEngine.current_questions s).
Proof.
  induction 1 as [data h | s department difficulty _ IH | s answer _ IH | s _ IH Hc].
  - unfold len. simpl. lia.
  - destruct (load_quiz_position s department difficulty) as [-> | ->]; [exact IH|].
    unfold len. lia.
  - destruct (submit_answer_keeps_position s answer) as [-> ->]. exact IH.
  - rewrite next_question_eq. simpl. unfold is_quiz_complete in Hc. lia.
Qed.

(** C7, as the code has it.  In every state that [load_quiz],
    [submit_answer] and [next_question] reach, the position is not negative
    and the session is complete if and only if the position is at least the
    number of questions.  When [next_question] is only called on a session
    that is not complete, the position is moreover at most the number of
    questions, and the session is complete if and only if the position
    equals it. *)
Theorem position_invariant :
  (forall s, reachable s ->
     0 <= QuizEngine.current_question_index s /\
     (is_quiz_complete s = true <->
      len (QuizEngine.current_questions s) <= QuizEngine.current_question_index s)) /\
  (forall s, reachable_guarded s ->
     0 <= QuizEngine.current_question_index s
       <= len (QuizEngine.current_questions s) /\
     (is_quiz_complete s = true <->
      QuizEngine.current_question_index s = len (QuizEngine.current_questions s))).
Proof.
  split; intros s Hs.
  - split; [exact (reachable_position s Hs)|].
    unfold is_quiz_complete. apply Z.leb_le.
  - pose proof (guarded_position s Hs) as Hp. split; [exact Hp|].
    unfold is_quiz_complete. rewrite Z.leb_le. lia.
Qed.

Lemma sample_played_guarded : reachable_guarded sample_played.
Proof.
  unfold sample_played.
  apply guarded_next; [apply guarded_submit, guarded_next;
                       [apply guarded_submit, guarded_load, guarded_init|]|];
    reflexivity.
Qed.

Lemma sample_played_reachable : reachable sample_played.
Proof.
  unfold sample_played.
  apply reachable_next, reachable_submit, reachable_next, reachable_submit,
        reachable_load, reachable_init.
Qed.

Lemma position_invariant_witness :
  (0 <= QuizEngine.current_question_index (next_question sample_played).2 /\
   (is_quiz_complete (next_question sample_played).2 = true <->
    len (QuizEngine.current_questions (next_question sample_played).2)
      <= QuizEngine.current_question_index (next_question sample_played).2)) /\
  (0 <= QuizEngine.current_question_index sample_played
     <= len (QuizEngine.current_questions sample_played) /\
   (is_quiz_complete sample_played = true <->
    QuizEngine.current_question_index sample_played
      = len (QuizEngine.current_questions sample_played))).
Proof.
  split.
  - apply (proj1 position_invariant (next_question sample_played).2).
    apply reachable_next, sample_played_reachable.
  - apply (proj2 position_invariant sample_played), sample_played_guarded.
Defined.

(** C7, as stated, fails: a call of [next_question] on the completed sample
    session reaches a state whose position, 3, exceeds the number of
    questions, 2; the session is complete there although the position
    differs from the number of questions. *)
Lemma position_exceeds_question_count :
  reachable (next_question sample_played).2 /\
  QuizEngine.current_question_index (next_question sample_played).2 = 3 /\
  len (QuizEngine.current_questions (next_question sample_played).2) = 2 /\
  is_quiz_complete (next_question sample_played).2 = true.
Proof.
  split; [apply reachable_next, sample_played_reachable|].
  repeat split; reflexivity.
Qed.

(** ** The final result *)

Lemma round_half_even_nonneg (a b : Z) :
  0 <= a -> 0 < b -> 0 <= round_half_even a b.
Proof.
  intros Ha Hb. unfold round_half_even.
  pose proof (Z.div_pos a b Ha Hb) as Hf.
  destruct (2 * (a mod b) ?= b); [destruct (Z.even (a / b))| |]; lia.
Qed.

Lemma round_magnitude_nonneg (n d : Z) :
  0 < n -> 0 < d -> (0 <= round_magnitude n d)%Q.
Proof.
  intros Hn Hd. unfold round_magnitude.
  destruct (0 <=? Z.max (floor_log2 n d - 52) (-1074)) eqn:E.
  - apply Z.leb_le in E.
    assert (0 < 2 ^ Z.max (floor_log2 n d - 52) (-1074)) as Hp
        by (apply Z.pow_pos_nonneg; lia).
    pose proof (round_half_even_nonneg n
                  (d * 2 ^ Z.max (floor_log2 n d - 52) (-1074))) as Hr.
    unfold Qle. simpl. nia.
  - apply Z.leb_gt in E. rewrite Qred_correct.
    assert (0 < 2 ^ (- Z.max (floor_log2 n d - 52) (-1074))) as Hp
        by (apply Z.pow_pos_nonneg; lia).
    pose proof (round_half_even_nonneg
                  (n * 2 ^ (- Z.max (floor_log2 n d - 52) (-1074))) d) as Hr.
    unfold Qle. simpl. nia.
Qed.

(** Rounding depends on the value of the rational only. *)
Lemma round_double_Qeq (q q' : Q) : (q == q')%Q -> round_double q = round_double q'.
Proof.
  intros H. unfold round_double. rewrite (Qred_complete q q' H). reflexivity.
Qed.

(** Rounding keeps the sign: what is not positive does not round to a
    positive float. *)
Lemma round_double_nonpos (q : Q) :
  (q <= 0)%Q -> fcompare (round_double q) (Finite 0) <> Gt.
Proof.
  intros Hq. rewrite <- (Qred_correct q) in Hq. unfold round_double.
  destruct (Qred q) as [num den]. simpl in *.
  destruct num as [|n|n].
  - simpl. discriminate.
  - exfalso. unfold Qle in Hq. simpl in Hq. lia.
  - destruct (Qle_bool (inject_Z (2 ^ 1024))
                (round_magnitude (Z.pos n) (Z.pos den))); simpl; [discriminate|].
    pose proof (round_magnitude_nonneg (Z.pos n) (Z.pos den)) as Hv.
    intros Hgt. apply Qgt_alt in Hgt.
    assert (0 <= round_magnitude (Z.pos n) (Z.pos den))%Q as Hv' by (apply Hv; lia).
    unfold Qlt, Qle in *. simpl in *. lia.
Qed.

Lemma times_100_nonpos (x : pyfloat) :
  fcompare x (Finite 0) <> Gt -> fcompare (times_100 x) (Finite 0) <> Gt.
Proof.
  destruct x as [q| |]; simpl; intros Hx.
  - apply round_double_nonpos.
    assert (q <= 0)%Q as Hq.
    { destruct (Qlt_le_dec 0 q) as [Hlt | Hle]; [|exact Hle].
      exfalso. apply Hx. apply Qgt_alt. exact Hlt. }
    unfold Qle in *. simpl in *. lia.
  - exfalso. apply Hx. reflexivity.
  - discriminate.
Qed.

(** The rounding on a few rationals: a value that no double has, ties to
    even at 53 bits, the largest double and the overflow beyond it, and
    ties to even among the subnormal numbers. *)
Example round_double_examples :
  round_double (1 # 10) = Finite (3602879701896397 # 36028797018963968) /\
  round_double (inject_Z (2 ^ 53 + 1)) = Finite (inject_Z (2 ^ 53)) /\
  round_double (inject_Z (2 ^ 53 + 3)) = Finite (inject_Z (2 ^ 53 + 4)) /\
  round_double (inject_Z (2 ^ 1024 - 2 ^ 970 - 1))
    = Finite (inject_Z (2 ^ 1024 - 2 ^ 971)) /\
  round_double (inject_Z (2 ^ 1024 - 2 ^ 970)) = PosInf /\
  round_double (inject_Z (- 2 ^ 1024)) = NegInf /\
  round_double (1 # 2 ^ 1075) = Finite 0 /\
  round_double (3 # 2 ^ 1075) = Finite (1 # 2 ^ 1073).
Proof. repeat split; vm_compute; reflexivity. Qed.

(** [compute_percentage] in one equation. *)
Lemma compute_percentage_eq (score total_marks : Z) :
  compute_percentage score total_marks =
  if 0 <? total_marks then
    match round_double (inject_Z score / inject_Z total_marks) with
    | Finite x => Return (round_double (x * 100))
    | _ => Raise OverflowError
    end
  else Return (Finite 0).
Proof.
  unfold compute_percentage, truediv.
  destruct (0 <? total_marks) eqn:E; [|reflexivity].
  replace (total_marks =? 0) with false by lia.
  destruct (round_double (inject_Z score / inject_Z total_marks)); reflexivity.
Qed.

Lemma compute_percentage_raises (score total_marks : Z) (x : exn) :
  compute_percentage score total_marks = Raise x -> x = OverflowError.
Proof.
  rewrite compute_percentage_eq.
  destruct (0 <? total_marks); [|discriminate].
  destruct (round_double (inject_Z score / inject_Z total_marks));
    [discriminate| |]; intros [= <-]; reflexivity.
Qed.

Lemma compute_percentage_full_marks (total_marks : Z) :
  0 < total_marks ->
  compute_percentage total_marks total_marks = Return (Finite 100).
Proof.
  intros Ht. rewrite compute_percentage_eq.
  replace (0 <? total_marks) with true by lia.
  rewrite (round_double_Qeq (inject_Z total_marks / inject_Z total_marks) 1).
  - vm_compute. reflexivity.
  - field. intros H. unfold Qeq in H. simpl in H. lia.
Qed.

Lemma compute_percentage_no_marks (total_marks : Z) :
  compute_percentage 0 total_marks = Return (Finite 0).
Proof.
  rewrite compute_percentage_eq.
  destruct (0 <? total_marks) eqn:E; [|reflexivity].
  rewrite (round_double_Qeq (inject_Z 0 / inject_Z total_marks) 0).
  - vm_compute. reflexivity.
  - unfold Qeq. simpl. lia.
Qed.

Lemma compute_percentage_nonpos (score total_marks : Z) (p : pyfloat) :
  score <= 0 ->
  compute_percentage score total_marks = Return p ->
  fcompare p (Finite 0) <> Gt.
Proof.
  intros Hs. unfold compute_percentage, truediv.
  destruct (0 <? total_marks) eqn:E.
  - replace (total_marks =? 0) with false by lia.
    pose proof (round_double_nonpos (inject_Z score / inject_Z total_marks)) as Hr.
    destruct (round_double (inject_Z score / inject_Z total_marks)) as [q| |];
      [|discriminate|discriminate].
    intros [= <-]. apply (times_100_nonpos (Finite q)), Hr.
    apply Z.ltb_lt in E. destruct total_marks as [|t|t]; [lia| |lia].
    unfold Qle, Qdiv, Qmult, Qinv. simpl. lia.
  - intros [= <-]. simpl. discriminate.
Qed.

(** [add_score] raises nothing but [KeyError]. *)
Lemma add_score_raises (result : QuizResult.t) (h h' : HighScoreManager.t) (x : exn) :
  add_score result h = (Raise x, h') -> x = KeyError /\ h' = h.
Proof.
  rewrite add_score_eq.
  destruct (HighScoreManager.scores h !! QuizResult.department result) as [by_diff|].
  - destruct (by_diff !! QuizResult.difficulty result).
    + discriminate.
    + intros [= <- <-]. split; reflexivity.
  - intros [= <- <-]. split; reflexivity.
Qed.

(** [get_final_result] in one equation. *)
Lemma get_final_result_eq (self : QuizEngine.t)
      (department difficulty player_name now : string) :
  get_final_result department difficulty player_name now self =
  match compute_percentage (QuizEngine.score self) (QuizEngine.total_marks self) with
  | Raise x => (Raise x, self)
  | Return percentage =>
      match add_score
              (QuizResult.mk department difficulty (QuizEngine.score self)
                 (QuizEngine.total_marks self) percentage player_name now)
              (QuizEngine.high_score_manager self) with
      | (Return _, h) =>
          (Return (QuizResult.mk department difficulty (QuizEngine.score self)
                     (QuizEngine.total_marks self) percentage player_name now),
           QuizEngine.with_high_score_manager self h)
      | (Raise x, h) => (Raise x, QuizEngine.with_high_score_manager self h)
      end
  end.
Proof.
  unfold get_final_result, bind, get_self, lift, on_high_score_manager, ret.
  destruct (compute_percentage (QuizEngine.score self) (QuizEngine.total_marks self))
    as [p|x]; [|reflexivity].
  destruct (add_score _ (QuizEngine.high_score_manager self)) as [[[]|x] h];
    reflexivity.
Qed.

(** C9, as the code has it.  The percentage is computed in floating point
    as [score / total_marks * 100]: for positive total marks the true
    quotient is rounded to the nearest double and its product with 100 is
    rounded again, and [OverflowError] is raised when the quotient is too
    large for a double; for total marks of 0 or less the percentage is 0.
    A division by zero is never raised.  The percentage is exactly 100 when
    the score equals positive total marks, exactly 0 when the score is 0,
    and never positive when the score is negative.  Whenever the percentage
    is computed and the bucket exists, [get_final_result] returns a result
    with that percentage. *)
Theorem final_percentage (self : QuizEngine.t)
        (department difficulty player_name now : string) :
  (QuizEngine.total_marks self <= 0 ->
   compute_percentage (QuizEngine.score self) (QuizEngine.total_marks self)
     = Return (Finite 0)) /\
  (0 < QuizEngine.total_marks self ->
   compute_percentage (QuizEngine.score self) (QuizEngine.total_marks self) =
     match round_double (inject_Z (QuizEngine.score self)
                         / inject_Z (QuizEngine.total_marks self)) with
     | Finite x => Return (round_double (x * 100))
     | _ => Raise OverflowError
     end) /\
  compute_percentage (QuizEngine.score self) (QuizEngine.total_marks self)
    <> Raise ZeroDivisionError /\
  (0 < QuizEngine.total_marks self ->
   QuizEngine.score self = QuizEngine.total_marks self ->
   compute_percentage (QuizEngine.score self) (QuizEngine.total_marks self)
     = Return (Finite 100)) /\
  (QuizEngine.score self = 0 ->
   compute_percentage (QuizEngine.score self) (QuizEngine.total_marks self)
     = Return (Finite 0)) /\
  (forall percentage,
     QuizEngine.score self < 0 ->
     compute_percentage (QuizEngine.score self) (QuizEngine.total_marks self)
       = Return percentage ->
     fcompare percentage (Finite 0) <> Gt) /\
  (forall percentage old,
     compute_percentage (QuizEngine.score self) (QuizEngine.total_marks self)
       = Return percentage ->
     bucket (QuizEngine.high_score_manager self) department difficulty = Some old ->
     exists s',
       get_final_result department difficulty player_name now self =
         (Return (QuizResult.mk department difficulty (QuizEngine.score self)
                    (QuizEngine.total_marks self) percentage player_name now),
          s')) /\
  (forall x s',
     get_final_result department difficulty player_name now self = (Raise x, s') ->
     x <> ZeroDivisionError).
Proof.
  split; [|split; [|split; [|split; [|split; [|split; [|split]]]]]].
  - intros Ht. rewrite compute_percentage_eq.
    replace (0 <? QuizEngine.total_marks self) with false by lia. reflexivity.
  - intros Ht. rewrite compute_percentage_eq.
    replace (0 <? QuizEngine.total_marks self) with true by lia. reflexivity.
  - intros H. apply compute_percentage_raises in H. discriminate.
  - intros Ht ->. apply compute_percentage_full_marks, Ht.
  - intros ->. apply compute_percentage_no_marks.
  - intros p Hs. apply compute_percentage_nonpos. lia.
  - intros p old Hp Hb. rewrite get_final_result_eq, Hp.
    destruct (add_score_present
                (QuizResult.mk department difficulty (QuizEngine.score self)
                   (QuizEngine.total_marks self) p player_name now)
                _ _ Hb) as (h' & -> & _).
    eexists. reflexivity.
  - intros x s'. rewrite get_final_result_eq.
    destruct (compute_percentage (QuizEngine.score self)
                (QuizEngine.total_marks self)) as [p|y] eqn:Hp.
    + destruct (add_score _ (QuizEngine.high_score_manager self))
        as [[[]|y] h] eqn:E; [discriminate|].
      apply add_score_raises in E as [-> _]. intros [= <- _]. discriminate.
    + apply compute_percentage_raises in Hp as ->. intros [= <- _]. discriminate.
Qed.

Lemma final_percentage_witness :
  (exists s',
     get_final_result "Mathematics" "Easy" "Alice" "2024-01-01 10:00:00"
                      sample_penalised =
       (Return (QuizResult.mk "Mathematics" "Easy" (-5) 30
                  (Finite (-2345624805922133 # 140737488355328))
                  "Alice" "2024-01-01 10:00:00"),
        s')) /\
  fcompare (Finite (-2345624805922133 # 140737488355328)) (Finite 0) <> Gt.
Proof.
  destruct (final_percentage sample_penalised
              "Mathematics" "Easy" "Alice" "2024-01-01 10:00:00")
    as (_ & _ & _ & _ & _ & Hsign & Hresult & _).
  split.
  - apply (Hresult (Finite (-2345624805922133 # 140737488355328)) []);
      vm_compute; reflexivity.
  - apply Hsign; vm_compute; reflexivity.
Defined.

(** C9, as stated, fails: for the score 7 out of 25 of the played rounding
    quiz the formula gives exactly 28, and [get_final_result] returns the
    double [28.000000000000004], which is [28 + 2 ^ -48]. *)
Lemma percentage_differs_from_formula :
  QuizEngine.score rounding_played = 7 /\
  QuizEngine.total_marks rounding_played = 25 /\
  (spec_percentage 7 25 == 28)%Q /\
  (get_final_result "Mathematics" "Easy" "Alice" "2024-01-01 10:00:00"
                    rounding_played).1 =
    Return (QuizResult.mk "Mathematics" "Easy" 7 25
              (Finite (7881299347898369 # 281474976710656))
              "Alice" "2024-01-01 10:00:00") /\
  ~ (7881299347898369 # 281474976710656 == spec_percentage 7 25)%Q.
Proof.
  split; [reflexivity|]. split; [reflexivity|]. split; [reflexivity|].
  split; [vm_compute; reflexivity|].
  intros H. vm_compute in H. discriminate.
Qed.

(** ** Recording results *)

Lemma default_bucket_present (filename department difficulty : string) :
  department ∈ default_departments ->
  difficulty ∈ default_difficulties ->
  bucket (HighScoreManager.mk filename _create_default_structure)
         department difficulty = Some [].
Proof.
  unfold default_departments, default_difficulties. intros Hd Hf.
  repeat (apply elem_of_cons in Hd as [-> | Hd]);
    try (apply elem_of_nil in Hd; contradiction);
    repeat (apply elem_of_cons in Hf as [-> | Hf]);
    try (apply elem_of_nil in Hf; contradiction);
    reflexivity.
Qed.

(** C10.  When the store has no bucket under the key of the result,
    [add_score] raises [KeyError] and leaves the store as it is: it creates
    no bucket.  It returns normally exactly when the bucket exists.  The
    default structure has a bucket, empty, for each of its departments and
    difficulties. *)
Theorem add_score_requires_bucket (result : QuizResult.t) (h : HighScoreManager.t) :
  (bucket h (QuizResult.department result) (QuizResult.difficulty result) = None ->
   add_score result h = (Raise KeyError, h)) /\
  ((exists h', add_score result h = (Return tt, h')) <->
   is_Some (bucket h (QuizResult.department result) (QuizResult.difficulty result))) /\
  (forall filename department difficulty,
     department ∈ default_departments ->
     difficulty ∈ default_difficulties ->
     bucket (HighScoreManager.mk filename _create_default_structure)
            department difficulty = Some []).
Proof.
  split; [apply add_score_absent|]. split; [|apply default_bucket_present].
  split.
  - intros [h' Hh'].
    destruct (bucket h (QuizResult.department result) (QuizResult.difficulty result))
      as [old|] eqn:Hb; [eauto|].
    rewrite (add_score_absent _ _ Hb) in Hh'. discriminate.
  - intros [old Hb]. destruct (add_score_present _ _ _ Hb) as (h' & Hh' & _).
    eauto.
Qed.

Lemma add_score_requires_bucket_witness :
  add_score physics_result sample_store = (Raise KeyError, sample_store) /\
  (exists h', add_score sample_result sample_store = (Return tt, h')) /\
  bucket sample_store "Mathematics" "Easy" = Some [].
Proof.
  split; [|split].
  - apply (proj1 (add_score_requires_bucket physics_result sample_store)).
    reflexivity.
  - apply (proj1 (proj2 (add_score_requires_bucket sample_result sample_store))).
    exists []. reflexivity.
  - apply (proj2 (proj2 (add_score_requires_bucket sample_result sample_store))).
    + unfold default_departments. set_solver.
    + unfold default_difficulties. set_solver.
Defined.

Lemma inserted_ranked_all (old : list Entry.t) (result : QuizResult.t) :
  StronglySorted ranks_before (inserted old result).
Proof.
  apply (StronglySorted_mono (key_le sort_key)).
  - intros x y. apply sort_key_ranks.
  - apply py_sort_StronglySorted.
Qed.

(** C2.  An insertion into an existing bucket always succeeds, whatever
    the rank of the result: the entry is appended and the bucket sorted,
    which gives a permutation of the old entries and the new one in ranking
    order (percentage descending, then score descending), and the first ten
    of them are stored; the stored bucket has at most ten entries, in
    ranking order, and contains the new entry whenever the old bucket had
    fewer than ten.  Hence through every sequence of insertions every bucket
    keeps at most ten entries in ranking order, from the default structure
    in particular. *)
Theorem leaderboard_capped_and_ranked :
  (forall result h old,
     bucket h (QuizResult.department result) (QuizResult.difficulty result)
       = Some old ->
     exists h',
       add_score result h = (Return tt, h') /\
       inserted old result ≡ₚ QuizResult.to_dict result :: old /\
       StronglySorted ranks_before (inserted old result) /\
       bucket h' (QuizResult.department result) (QuizResult.difficulty result)
         = Some (take 10 (inserted old result)) /\
       (length (take 10 (inserted old result)) <= 10)%nat /\
       StronglySorted ranks_before (take 10 (inserted old result)) /\
       ((length old < 10)%nat ->
        QuizResult.to_dict result ∈ take 10 (inserted old result))) /\
  (forall results h, store_ok h -> store_ok (add_scores results h)) /\
  (forall filename results,
     store_ok (add_scores results
                 (HighScoreManager.mk filename _create_default_structure))).
Proof.
  split; [|split].
  - intros result h old Hb.
    destruct (add_score_present _ _ _ Hb) as (h' & Hh' & _ & Hbucket).
    exists h'. split; [exact Hh'|].
    split; [apply inserted_Permutation|].
    split; [apply inserted_ranked_all|].
    split; [rewrite Hbucket, decide_True by done; reflexivity|].
    split; [rewrite length_take; lia|].
    split; [apply inserted_ranked|].
    intros Hlen. rewrite take_ge.
    + rewrite inserted_Permutation. apply list_elem_of_here.
    + rewrite (Permutation_length (inserted_Permutation old result)). simpl. lia.
  - intros results h. apply add_scores_store_ok.
  - intros filename results. apply add_scores_store_ok, default_store_ok.
Qed.

Lemma leaderboard_capped_and_ranked_witness :
  exists h',
    add_score sample_result sample_store = (Return tt, h') /\
    inserted [] sample_result ≡ₚ [QuizResult.to_dict sample_result] /\
    StronglySorted ranks_before (inserted [] sample_result) /\
    bucket h' "Mathematics" "Easy" = Some (take 10 (inserted [] sample_result)) /\
    (length (take 10 (inserted [] sample_result)) <= 10)%nat /\
    StronglySorted ranks_before (take 10 (inserted [] sample_result)) /\
    ((length (@nil Entry.t) < 10)%nat ->
     QuizResult.to_dict sample_result ∈ take 10 (inserted [] sample_result)) /\
    store_ok (add_scores [sample_result; physics_result; sample_result] sample_store).
Proof.
  destruct (proj1 leaderboard_capped_and_ranked sample_result sample_store [])
    as (h' & H1 & H2 & H3 & H4 & H5 & H6 & H7); [reflexivity|].
  exists h'. repeat (split; [assumption|]).
  apply (proj1 (proj2 leaderboard_capped_and_ranked)
               [sample_result; physics_result; sample_result] sample_store).
  apply default_store_ok.
Defined.

(** Eleven insertions into one bucket: the ten best are kept, the result
    with the lowest percentage is dropped. *)
Example eleven_insertions :
  map Entry.score
      (get_leaderboard
         (add_scores
            (map (fun s => QuizResult.mk "Mathematics" "Easy" s 20
                             (Finite (inject_Z (5 * s))) "Alice"
                             "2024-01-01 10:00:00")
                 [3; 1; 4; -1; 5; 9; 2; 6; 5; 3; 8])
            sample_store)
         "Mathematics" "Easy")
  = [9; 8; 6; 5; 5; 4; 3; 3; 2; 1].
Proof. vm_compute. reflexivity. Qed.

(** ** Finalizing twice *)

(** C3, as the code has it.  [get_final_result] has no finalized state: a
    second call on the same session succeeds like the first, with the same
    score, total marks and percentage, leaves the session fields as they
    are, and inserts one more entry into the bucket (appended, sorted and
    truncated to ten like every insertion). *)
Theorem get_final_result_twice (self s1 : QuizEngine.t) (result : QuizResult.t)
        (department difficulty player_name now now' : string) :
  get_final_result department difficulty player_name now self = (Return result, s1) ->
  exists result' s2 old,
    get_final_result department difficulty player_name now' s1
      = (Return result', s2) /\
    QuizResult.score result' = QuizResult.score result /\
    QuizResult.total_marks result' = QuizResult.total_marks result /\
    QuizResult.percentage result' = QuizResult.percentage result /\
    session s2 = session self /\
    bucket (QuizEngine.high_score_manager s1) department difficulty = Some old /\
    inserted old result' ≡ₚ QuizResult.to_dict result' :: old /\
    bucket (QuizEngine.high_score_manager s2) department difficulty
      = Some (take 10 (inserted old result')).
Proof.
  rewrite get_final_result_eq.
  destruct (compute_percentage (QuizEngine.score self) (QuizEngine.total_marks self))
    as [p|x] eqn:Hp; [|discriminate].
  destruct (add_score _ (QuizEngine.high_score_manager self)) as [[[]|x] h1] eqn:E1;
    [|discriminate].
  intros [= <- <-].
  rewrite get_final_result_eq. simpl. rewrite Hp.
  destruct (bucket (QuizEngine.high_score_manager self) department difficulty)
    as [old0|] eqn:Hb0.
  2:{ rewrite (add_score_absent _ (QuizEngine.high_score_manager self)) in E1
        by exact Hb0. discriminate. }
  destruct (add_score_present
              (QuizResult.mk department difficulty (QuizEngine.score self)
                 (QuizEngine.total_marks self) p player_name now)
              _ _ Hb0) as (h1' & Hh1 & _ & Hb1).
  rewrite E1 in Hh1. injection Hh1 as <-.
  specialize (Hb1 department difficulty). simpl in Hb1.
  rewrite decide_True in Hb1 by done.
  destruct (add_score_present
              (QuizResult.mk department difficulty (QuizEngine.score self)
                 (QuizEngine.total_marks self) p player_name now')
              h1 _ Hb1) as (h2 & Hh2 & _ & Hb2).
  rewrite Hh2.
  eexists _, _, _. split; [reflexivity|].
  do 4 (split; [reflexivity|]).
  split; [exact Hb1|]. split; [apply inserted_Permutation|].
  simpl. rewrite Hb2. simpl. rewrite decide_True by done. reflexivity.
Qed.

Lemma get_final_result_twice_witness :
  exists result' s2 old,
    get_final_result "Mathematics" "Easy" "Alice" "2024-01-01 10:05:00"
                     sample_finalized = (Return result', s2) /\
    QuizResult.score result' = 0 /\
    QuizResult.total_marks result' = 30 /\
    QuizResult.percentage result' = Finite 0 /\
    session s2 = session sample_played /\
    bucket (QuizEngine.high_score_manager sample_finalized) "Mathematics" "Easy"
      = Some old /\
    inserted old result' ≡ₚ QuizResult.to_dict result' :: old /\
    bucket (QuizEngine.high_score_manager s2) "Mathematics" "Easy"
      = Some (take 10 (inserted old result')).
Proof.
  apply (get_final_result_twice sample_played sample_finalized sample_result
           "Mathematics" "Easy" "Alice"
           "2024-01-01 10:00:00" "2024-01-01 10:05:00").
  reflexivity.
Defined.

(** C3, as stated, fails: on the completed sample session the second call
    of [get_final_result] returns the result again instead of failing, and
    the bucket, empty before the first call, holds two entries of that
    session after the second. *)
Lemma second_finalize_inserts_again :
  is_quiz_complete sample_played = true /\
  get_leaderboard (QuizEngine.high_score_manager sample_played)
                  "Mathematics" "Easy" = [] /\
  (get_final_result "Mathematics" "Easy" "Alice" "2024-01-01 10:00:00"
                    sample_played).1 = Return sample_result /\
  (get_final_result "Mathematics" "Easy" "Alice" "2024-01-01 10:00:00"
                    sample_finalized).1 = Return sample_result /\
  get_leaderboard
    (QuizEngine.high_score_manager
       (get_final_result "Mathematics" "Easy" "Alice" "2024-01-01 10:00:00"
                         sample_finalized).2)
    "Mathematics" "Easy"
  = [QuizResult.to_dict sample_result; QuizResult.to_dict sample_result].
Proof. repeat split; vm_compute; reflexivity. Qed.

(** * Further properties *)

(** ** Where the sort puts a new element *)

Lemma tuple_lt_true_iff (a b : pyfloat * Z) : tuple_lt a b = true <-> ~ tuple_le b a.
Proof.
  rewrite <- tuple_lt_false. destruct (tuple_lt a b); split; congruence.
Qed.

Lemma StronglySorted_app_inv {A : Type} (R : A -> A -> Prop) (l1 l2 : list A) :
  StronglySorted R (l1 ++ l2) ->
  StronglySorted R l1 /\ StronglySorted R l2 /\
  forall x y, x ∈ l1 -> y ∈ l2 -> R x y.
Proof.
  induction l1 as [|a l1 IH]; simpl; intros Hs.
  - split; [constructor|]. split; [exact Hs|].
    intros x y Hx. apply elem_of_nil in Hx. contradiction.
  - inversion Hs as [|? ? Hl Ha]; subst.
    destruct (IH Hl) as (H1 & H2 & H12).
    rewrite Forall_forall in Ha.
    split; [|split; [exact H2|]].
    + constructor; [exact H1|]. apply Forall_forall. intros y Hy.
      apply Ha. apply elem_of_app. left. exact Hy.
    + intros x y Hx Hy. apply elem_of_cons in Hx as [-> | Hx].
      * apply Ha. apply elem_of_app. right. exact Hy.
      * exact (H12 x y Hx Hy).
Qed.

Section insertion_point.
Context {A : Type} (key : A -> pyfloat * Z).

Lemma insort_split (x : A) (l : list A) :
  exists l1 l2,
    l = l1 ++ l2 /\
    insort key x l = l1 ++ x :: l2 /\
    Forall (fun y => key_le key y x) l1 /\
    match l2 with
    | [] => True
    | y :: _ => ~ key_le key y x
    end.
Proof.
  induction l as [|y l (l1 & l2 & Hl & Hi & H1 & H2)]; simpl.
  - exists [], []. repeat split; constructor.
  - destruct (tuple_lt (key x) (key y)) eqn:E.
    + exists [], (y :: l). repeat split; [constructor|].
      apply tuple_lt_true_iff. exact E.
    + exists (y :: l1), l2. subst l. rewrite Hi. repeat split; [|exact H2].
      constructor; [|exact H1]. apply tuple_lt_false. exact E.
Qed.

Lemma insort_split_sorted (x : A) (l : list A) :
  StronglySorted (key_le key) l ->
  exists l1 l2,
    l = l1 ++ l2 /\
    insort key x l = l1 ++ x :: l2 /\
    Forall (fun y => key_le key y x) l1 /\
    Forall (fun y => ~ key_le key y x) l2.
Proof.
  intros Hs. destruct (insort_split x l) as (l1 & l2 & Hl & Hi & H1 & H2).
  exists l1, l2. repeat split; try assumption.
  destruct l2 as [|y l2]; [constructor|].
  subst l. apply StronglySorted_app_inv in Hs as (_ & Hs & _).
  inversion Hs as [|? ? _ Hy]; subst.
  constructor; [exact H2|].
  eapply Forall_impl; [exact Hy|].
  intros z Hyz Hzx. apply H2. exact (tuple_le_trans _ _ _ Hyz Hzx).
Qed.

Lemma insort_end (x : A) (l : list A) :
  Forall (fun y => key_le key y x) l -> insort key x l = l ++ [x].
Proof.
  induction 1 as [|y l Hy _ IH]; simpl; [reflexivity|].
  apply tuple_lt_false in Hy. rewrite Hy, IH. reflexivity.
Qed.

Lemma py_sort_snoc (l : list A) (x : A) :
  py_sort key (l ++ [x]) = insort key x (py_sort key l).
Proof. unfold py_sort. rewrite fold_left_app. reflexivity. Qed.

(** Sorting a list that is in order returns it as it is. *)
Lemma py_sort_sorted (l : list A) :
  StronglySorted (key_le key) l -> py_sort key l = l.
Proof.
  induction l as [|x l IH] using rev_ind; intros Hs; [reflexivity|].
  rewrite py_sort_snoc.
  apply StronglySorted_app_inv in Hs as (Hl & _ & Hx).
  rewrite (IH Hl). apply insort_end.
  apply Forall_forall. intros y Hy. apply (Hx y x Hy). apply list_elem_of_here.
Qed.
End insertion_point.

Lemma ranked_key_sorted (l : list Entry.t) :
  StronglySorted ranks_before l -> StronglySorted (key_le sort_key) l.
Proof.
  apply StronglySorted_mono. intros x y. apply sort_key_ranks.
Qed.

(** The insertion point of the new entry in a bucket that is in ranking
    order. *)
Lemma inserted_split (old : list Entry.t) (result : QuizResult.t) :
  StronglySorted ranks_before old ->
  exists l1 l2,
    old = l1 ++ l2 /\
    inserted old result = l1 ++ QuizResult.to_dict result :: l2 /\
    Forall (fun y => ranks_before y (QuizResult.to_dict result)) l1 /\
    Forall (fun y => ~ ranks_before y (QuizResult.to_dict result)) l2.
Proof.
  intros Hs. apply ranked_key_sorted in Hs.
  destruct (insort_split_sorted sort_key (QuizResult.to_dict result) old Hs)
    as (l1 & l2 & Hl & Hi & H1 & H2).
  exists l1, l2. split; [exact Hl|]. split.
  - unfold inserted. rewrite py_sort_snoc, (py_sort_sorted _ _ Hs). exact Hi.
  - split; (eapply Forall_impl; [eassumption|]); intros y; simpl;
      rewrite sort_key_ranks; trivial.
Qed.

Lemma get_leaderboard_bucket (h : HighScoreManager.t) (department difficulty : string) :
  get_leaderboard h department difficulty = default [] (bucket h department difficulty).
Proof.
  unfold get_leaderboard, bucket.
  destruct (HighScoreManager.scores h !! department); simpl; [reflexivity|].
  rewrite lookup_empty. reflexivity.
Qed.

(** ** The leaderboard after an insertion *)

(** X1.  Reading back after [add_score]: the leaderboard under the key of
    the result is the first ten entries of the sorted old bucket with the
    new entry, when that bucket exists; the leaderboard under every other
    key, and every leaderboard when the insertion raises, is what it was. *)
Theorem get_leaderboard_after_add_score (result : QuizResult.t)
        (h : HighScoreManager.t) (department difficulty : string) :
  get_leaderboard (add_score result h).2 department difficulty =
  match bucket h (QuizResult.department result) (QuizResult.difficulty result) with
  | Some old =>
      if decide (department = QuizResult.department result /\
                 difficulty = QuizResult.difficulty result)
      then take 10 (inserted old result)
      else get_leaderboard h department difficulty
  | None => get_leaderboard h department difficulty
  end.
Proof.
  destruct (bucket h (QuizResult.department result) (QuizResult.difficulty result))
    as [old|] eqn:Hb.
  - destruct (add_score_present _ _ _ Hb) as (h' & -> & _ & Hh'). simpl.
    rewrite !get_leaderboard_bucket, Hh'. case_decide; reflexivity.
  - rewrite (add_score_absent _ _ Hb). reflexivity.
Qed.

(** X2.  The truncation drops the lowest ranks only: the stored bucket and
    the dropped entries together are the old entries and the new one, the
    stored bucket has one entry more than the old one up to the cap of ten,
    and every stored entry ranks at least as high as every dropped one. *)
Theorem add_score_drops_lowest (result : QuizResult.t) (h : HighScoreManager.t)
        (old : list Entry.t) :
  bucket h (QuizResult.department result) (QuizResult.difficulty result)
    = Some old ->
  exists h' kept dropped,
    add_score result h = (Return tt, h') /\
    bucket h' (QuizResult.department result) (QuizResult.difficulty result)
      = Some kept /\
    kept ++ dropped ≡ₚ QuizResult.to_dict result :: old /\
    length kept = Nat.min 10 (S (length old)) /\
    length dropped = (S (length old) - 10)%nat /\
    (forall x y, x ∈ kept -> y ∈ dropped -> ranks_before x y).
Proof.
  intros Hb. destruct (add_score_present _ _ _ Hb) as (h' & Hh' & _ & Hbucket).
  exists h', (take 10 (inserted old result)), (drop 10 (inserted old result)).
  pose proof (Permutation_length (inserted_Permutation old result)) as Hlen.
  simpl in Hlen.
  split; [exact Hh'|].
  split; [rewrite Hbucket, decide_True by done; reflexivity|].
  split; [rewrite take_drop; apply inserted_Permutation|].
  split; [rewrite length_take, Hlen; reflexivity|].
  split; [rewrite length_drop, Hlen; reflexivity|].
  pose proof (inserted_ranked_all old result) as Hs.
  rewrite <- (take_drop 10 (inserted old result)) in Hs.
  apply StronglySorted_app_inv in Hs as (_ & _ & Hs). exact Hs.
Qed.

Lemma add_score_drops_lowest_witness :
  exists h' kept dropped,
    add_score better_result full_store = (Return tt, h') /\
    bucket h' "Mathematics" "Easy" = Some kept /\
    kept ++ dropped ≡ₚ QuizResult.to_dict better_result :: full_bucket /\
    length kept = 10%nat /\
    length dropped = 1%nat /\
    (forall x y, x ∈ kept -> y ∈ dropped -> ranks_before x y).
Proof.
  apply (add_score_drops_lowest better_result full_store full_bucket).
  reflexivity.
Defined.

(** X3.  In a bucket that is in ranking order, [add_score] keeps the old
    entries in their order and puts the new entry behind all entries that
    rank at least as high, ties included, and in front of the entries that
    it beats; the first ten entries of that list are stored. *)
Theorem add_score_insertion_point (result : QuizResult.t) (h : HighScoreManager.t)
        (old : list Entry.t) :
  bucket h (QuizResult.department result) (QuizResult.difficulty result)
    = Some old ->
  StronglySorted ranks_before old ->
  exists h' l1 l2,
    add_score result h = (Return tt, h') /\
    old = l1 ++ l2 /\
    bucket h' (QuizResult.department result) (QuizResult.difficulty result)
      = Some (take 10 (l1 ++ QuizResult.to_dict result :: l2)) /\
    Forall (fun y => ranks_before y (QuizResult.to_dict result)) l1 /\
    Forall (fun y => ~ ranks_before y (QuizResult.to_dict result)) l2.
Proof.
  intros Hb Hs. destruct (add_score_present _ _ _ Hb) as (h' & Hh' & _ & Hbucket).
  destruct (inserted_split old result Hs) as (l1 & l2 & Hl & Hi & H1 & H2).
  exists h', l1, l2. split; [exact Hh'|]. split; [exact Hl|].
  split; [rewrite Hbucket, decide_True by done; rewrite Hi; reflexivity|].
  split; assumption.
Qed.

Lemma full_bucket_ranked : StronglySorted ranks_before full_bucket.
Proof.
  assert (py_sort sort_key full_bucket = full_bucket) as <-
      by (vm_compute; reflexivity).
  apply (StronglySorted_mono (key_le sort_key)).
  - intros x y. apply sort_key_ranks.
  - apply py_sort_StronglySorted.
Qed.

Lemma add_score_insertion_point_witness :
  exists h' l1 l2,
    add_score better_result full_store = (Return tt, h') /\
    full_bucket = l1 ++ l2 /\
    bucket h' "Mathematics" "Easy"
      = Some (take 10 (l1 ++ QuizResult.to_dict better_result :: l2)) /\
    Forall (fun y => ranks_before y (QuizResult.to_dict better_result)) l1 /\
    Forall (fun y => ~ ranks_before y (QuizResult.to_dict better_result)) l2.
Proof.
  apply (add_score_insertion_point better_result full_store full_bucket).
  - reflexivity.
  - exact full_bucket_ranked.
Defined.

(** X4.  A full bucket in ranking order is left as it is by a result that
    beats none of its entries, a tie with the last entry included: the
    older entries keep their places and the store does not change. *)
Theorem add_score_full_bucket_unbeaten (result : QuizResult.t)
        (h : HighScoreManager.t) (old : list Entry.t) :
  bucket h (QuizResult.department result) (QuizResult.difficulty result)
    = Some old ->
  StronglySorted ranks_before old ->
  length old = 10%nat ->
  (forall y, y ∈ old -> ranks_before y (QuizResult.to_dict result)) ->
  add_score result h = (Return tt, h).
Proof.
  intros Hb Hs Hlen Hall.
  assert (take 10 (inserted old result) = old) as Htake.
  { destruct (inserted_split old result Hs) as (l1 & l2 & Hl & Hi & _ & H2).
    destruct l2 as [|y l2].
    - rewrite app_nil_r in Hl. subst l1. rewrite Hi.
      apply take_app_length'. symmetry. exact Hlen.
    - exfalso. inversion H2 as [|? ? Hy _]; subst. apply Hy, Hall.
      apply elem_of_app. right. apply list_elem_of_here. }
  rewrite add_score_eq. unfold bucket in Hb.
  destruct (HighScoreManager.scores h !! QuizResult.department result)
    as [by_diff|] eqn:Hd; simpl in Hb; [|discriminate].
  rewrite Hb, Htake, (insert_id by_diff _ _ Hb), (insert_id _ _ _ Hd).
  destruct h. reflexivity.
Qed.

Lemma tying_result_unbeaten (y : Entry.t) :
  y ∈ full_bucket -> ranks_before y (QuizResult.to_dict tying_result).
Proof.
  unfold full_bucket. simpl. intros Hy.
  repeat (apply elem_of_cons in Hy as [-> | Hy]);
    try (apply elem_of_nil in Hy; contradiction);
    try (left; reflexivity).
  right. split; [reflexivity | simpl; lia].
Qed.

Lemma add_score_full_bucket_unbeaten_witness :
  add_score tying_result full_store = (Return tt, full_store).
Proof.
  apply (add_score_full_bucket_unbeaten tying_result full_store full_bucket).
  - reflexivity.
  - exact full_bucket_ranked.
  - reflexivity.
  - exact tying_result_unbeaten.
Defined.

(** X5.  A result that beats an entry of a bucket of at most ten entries
    in ranking order is stored in the bucket. *)
Theorem add_score_better_enters (result : QuizResult.t) (h : HighScoreManager.t)
        (old : list Entry.t) (y : Entry.t) :
  bucket h (QuizResult.department result) (QuizResult.difficulty result)
    = Some old ->
  StronglySorted ranks_before old ->
  (length old <= 10)%nat ->
  y ∈ old ->
  ~ ranks_before y (QuizResult.to_dict result) ->
  exists h' kept,
    add_score result h = (Return tt, h') /\
    bucket h' (QuizResult.department result) (QuizResult.difficulty result)
      = Some kept /\
    QuizResult.to_dict result ∈ kept.
Proof.
  intros Hb Hs Hlen Hy Hbeats.
  destruct (add_score_present _ _ _ Hb) as (h' & Hh' & _ & Hbucket).
  exists h', (take 10 (inserted old result)).
  split; [exact Hh'|]. split; [rewrite Hbucket, decide_True by done; reflexivity|].
  destruct (inserted_split old result Hs) as (l1 & l2 & Hl & Hi & H1 & _).
  rewrite Hi. apply elem_of_take. exists (length l1). split.
  - apply list_lookup_middle. reflexivity.
  - subst old. rewrite length_app in Hlen.
    apply elem_of_app in Hy as [Hy | Hy].
    + exfalso. rewrite Forall_forall in H1. exact (Hbeats (H1 y Hy)).
    + destruct l2 as [|z l2]; [apply elem_of_nil in Hy; contradiction|].
      simpl in Hlen. lia.
Qed.

Lemma add_score_better_enters_witness :
  exists h' kept,
    add_score better_result full_store = (Return tt, h') /\
    bucket h' "Mathematics" "Easy" = Some kept /\
    QuizResult.to_dict better_result ∈ kept.
Proof.
  apply (add_score_better_enters better_result full_store full_bucket
           (Entry.mk "Alice" 6 10 (Finite (inject_Z (10 * 6)))
                     "2024-01-01 10:00:00")).
  - reflexivity.
  - exact full_bucket_ranked.
  - simpl. lia.
  - apply (list_elem_of_lookup_2 _ 4). reflexivity.
  - unfold ranks_before. simpl. intros [H | [H _]]; vm_compute in H; discriminate.
Defined.

(** ** Edge behaviour of [submit_answer] *)

Lemma list_getitem_out_of_range {A : Type} (l : list A) (i : Z) :
  ~ (- len l <= i < len l) -> list_getitem l i = Raise IndexError.
Proof.
  unfold len, list_getitem. intros Hi.
  destruct (i <? 0) eqn:E.
  - replace ((0 <=? i + Z.of_nat (length l)) &&
             (i + Z.of_nat (length l) <? Z.of_nat (length l))) with false by lia.
    reflexivity.
  - replace ((0 <=? i) && (i <? Z.of_nat (length l))) with false by lia.
    reflexivity.
Qed.

(** X6.  When the correct index of the current question is not an index of
    its options list, a wrong answer raises [IndexError], from the lookup of
    the correct option for the feedback, after the penalty has been
    subtracted: the call fails and the score has changed. *)
Theorem submit_answer_bad_correct_index (self : QuizEngine.t) (q : Question.t)
        (i : Z) :
  current self = Some q ->
  ~ (- len (Question.options q) <= Question.correct_answer q
       < len (Question.options q)) ->
  i <> Question.correct_answer q ->
  submit_answer (Some i) self =
    (Raise IndexError,
     QuizEngine.with_score self (QuizEngine.score self - Question.negative_marks q)).
Proof.
  intros Hq Hc Hne. unfold submit_answer, bind. rewrite get_current_question_eq, Hq.
  unfold Question.is_correct. replace (i =? Question.correct_answer q) with false by lia.
  unfold add_points, bind, get_self, set_self, lift.
  rewrite (list_getitem_out_of_range _ _ Hc). reflexivity.
Qed.

Lemma submit_answer_bad_correct_index_witness :
  submit_answer (Some 0) broken_engine =
    (Raise IndexError, QuizEngine.with_score broken_engine (0 - 5)).
Proof.
  apply (submit_answer_bad_correct_index broken_engine broken_question 0).
  - reflexivity.
  - unfold len. simpl. lia.
  - simpl. lia.
Defined.

(** [submit_answer] touches the score only. *)
Lemma submit_answer_touches_score_only (self : QuizEngine.t) (answer : option Z) :
  (submit_answer answer self).2 =
    QuizEngine.with_score self (QuizEngine.score (submit_answer answer self).2) /\
  (forall b points fb,
     (submit_answer answer self).1 = Return (b, points, fb) ->
     QuizEngine.score (submit_answer answer self).2 = QuizEngine.score self + points).
Proof.
  unfold submit_answer, bind. rewrite get_current_question_eq.
  destruct (current self) as [q|]; simpl.
  - destruct answer as [i|]; simpl.
    + destruct (Question.is_correct q i); simpl.
      * split; [reflexivity|]. intros b points fb [= _ <- _]. reflexivity.
      * unfold lift.
        destruct (list_getitem (Question.options q) (Question.correct_answer q));
          simpl; (split; [reflexivity|]); intros b points fb; [|discriminate].
        intros [= _ <- _]. reflexivity.
    + split; [reflexivity|]. intros b points fb [= _ <- _]. reflexivity.
  - split; [destruct self; reflexivity|].
    intros b points fb [= _ <- _]. lia.
Qed.

(** X7.  [submit_answer] changes nothing but the score, whatever the answer
    and also when it raises: the catalogue, the questions, the position,
    the total marks and the high scores stay; when it returns, the score
    has changed by exactly the points that it returns. *)
Theorem submit_answer_frame (self : QuizEngine.t) (answer : option Z) :
  (submit_answer answer self).2 =
    QuizEngine.with_score self (QuizEngine.score (submit_answer answer self).2) /\
  (forall b points fb,
     (submit_answer answer self).1 = Return (b, points, fb) ->
     QuizEngine.score (submit_answer answer self).2 = QuizEngine.score self + points).
Proof. exact (submit_answer_touches_score_only self answer). Qed.

Lemma submit_answer_frame_witness :
  (submit_answer (Some 0) sample_loaded).2 =
    QuizEngine.with_score sample_loaded
      (QuizEngine.score (submit_answer (Some 0) sample_loaded).2) /\
  QuizEngine.score (submit_answer (Some 0) sample_loaded).2
    = QuizEngine.score sample_loaded + 10.
Proof.
  destruct (submit_answer_frame sample_loaded (Some 0)) as [Hstate Hscore].
  split; [exact Hstate|].
  apply (Hscore true 10 (Correct 10)). reflexivity.
Defined.

(** The points of an answer to a well-formed current question. *)
Lemma submit_answer_points (self : QuizEngine.t) (q : Question.t)
      (answer : option Z) :
  current self = Some q ->
  well_formed q ->
  exists r,
    submit_answer answer self =
      (Return r,
       QuizEngine.with_score self
         (QuizEngine.score self + (ScoringRules.score q answer).1)).
Proof.
  intros Hq Hc. destruct answer as [i|]; simpl.
  - destruct (decide (i = Question.correct_answer q)) as [Heq|Hne]; simpl.
    + eexists. apply (submit_answer_right _ _ _ Hq Heq).
    + destruct (submit_answer_wrong _ _ _ Hq Hc Hne) as (o & _ & Hs).
      eexists. exact Hs.
  - eexists. apply (submit_answer_timeout _ _ Hq).
Qed.

(** ** The console front end *)

(** X8.  The console loop only submits an index when the player answered
    within the time limit with a number from 1 to the number of options;
    the index is that number minus one, a valid option index.  So the
    engine never receives an out-of-range index from the console. *)
Theorem console_answer_in_range (q : Question.t) (input : ConsoleInput.t) (i : Z) :
  console_answer q input = Some i ->
  valid_index q i /\
  ConsoleInput.typed input = Some (i + 1) /\
  (ConsoleInput.elapsed input <= inject_Z (Question.time_limit q))%Q.
Proof.
  unfold console_answer, valid_index.
  destruct (Qlt_bool (inject_Z (Question.time_limit q)) (ConsoleInput.elapsed input))
    eqn:Ht; [discriminate|].
  destruct (ConsoleInput.typed input) as [n|]; [|discriminate].
  destruct ((1 <=? n) && (n <=? len (Question.options q))) eqn:Hn; [|discriminate].
  intros [= <-]. split; [lia|]. split; [f_equal; lia|].
  apply Qle_bool_iff. unfold Qlt_bool in Ht.
  apply negb_false_iff in Ht. exact Ht.
Qed.

Lemma console_answer_in_range_witness :
  valid_index (build_question sample_q1) 1 /\
  ConsoleInput.typed (perfect_inputs 1) = Some (1 + 1) /\
  (ConsoleInput.elapsed (perfect_inputs 1)
     <= inject_Z (Question.time_limit (build_question sample_q1)))%Q.
Proof.
  apply (console_answer_in_range (build_question sample_q1) (perfect_inputs 1) 1).
  reflexivity.
Defined.

Lemma run_quiz_questions_step (fuel : nat) (inputs : nat -> ConsoleInput.t)
      (s : QuizEngine.t) :
  run_quiz_questions (S fuel) inputs s =
  if is_quiz_complete s then (Return true, s)
  else
    match current s with
    | None => (Return true, s)
    | Some q =>
        match submit_answer (console_answer q (inputs O)) s with
        | (Return _, s1) =>
            run_quiz_questions fuel (fun k => inputs (S k)) (next_question s1).2
        | (Raise x, s1) => (Raise x, s1)
        end
    end.
Proof.
  change (run_quiz_questions (S fuel) inputs s) with
    ((let! self := get_self in
      if is_quiz_complete self then ret true
      else
        let! question := get_current_question in
        match question with
        | None => ret true
        | Some question =>
            let answer := console_answer question (inputs O) in
            do! submit_answer answer in
            do! next_question in
            run_quiz_questions fuel (fun k => inputs (S k))
        end) s).
  unfold bind at 1. unfold get_self.
  destruct (is_quiz_complete s); [reflexivity|].
  unfold bind at 1. rewrite get_current_question_eq.
  destruct (current s) as [q|]; [|reflexivity].
  unfold bind at 1.
  destruct (submit_answer (console_answer q (inputs O)) s) as [[r|x] s1];
    reflexivity.
Qed.

Lemma current_lookup (s : QuizEngine.t) :
  0 <= QuizEngine.current_question_index s < len (QuizEngine.current_questions s) ->
  exists q,
    QuizEngine.current_questions s !! Z.to_nat (QuizEngine.current_question_index s)
      = Some q /\
    current s = Some q.
Proof.
  intros Hi. unfold current.
  replace ((0 <=? QuizEngine.current_question_index s) &&
           (QuizEngine.current_question_index s
              <? len (QuizEngine.current_questions s))) with true by lia.
  destruct (lookup_lt_is_Some_2 (QuizEngine.current_questions s)
              (Z.to_nat (QuizEngine.current_question_index s))) as [q Hq].
  - unfold len in Hi. lia.
  - exists q. split; exact Hq.
Qed.

(** The console loop from a position within well-formed questions. *)
Lemma run_quiz_questions_run (fuel : nat) (inputs : nat -> ConsoleInput.t)
        (s : QuizEngine.t) :
  0 <= QuizEngine.current_question_index s <= len (QuizEngine.current_questions s) ->
  Forall well_formed (QuizEngine.current_questions s) ->
  (Z.to_nat (len (QuizEngine.current_questions s)
             - QuizEngine.current_question_index s) < fuel)%nat ->
  run_quiz_questions fuel inputs s =
    (Return true,
     QuizEngine.with_score
       (QuizEngine.with_index s (len (QuizEngine.current_questions s)))
       (QuizEngine.score s
        + quiz_points
            (drop (Z.to_nat (QuizEngine.current_question_index s))
                  (QuizEngine.current_questions s))
            inputs)).
Proof.
  revert inputs s. induction fuel as [|fuel IH]; intros inputs s Hi Hwf Hfuel; [lia|].
  rewrite run_quiz_questions_step.
  destruct (is_quiz_complete s) eqn:Hc; unfold is_quiz_complete in Hc.
  - rewrite drop_ge by (unfold len in *; lia). simpl.
    destruct s as [aq qs i sc tm hsm]. unfold QuizEngine.with_score,
      QuizEngine.with_index. simpl in *. do 2 f_equal; lia.
  - destruct (current_lookup s) as (q & Hq & Hcur); [lia|].
    rewrite Hcur.
    assert (well_formed q) as Hq_wf.
    { rewrite Forall_forall in Hwf. apply Hwf.
      apply (list_elem_of_lookup_2 _ _ _ Hq). }
    destruct (submit_answer_points s q (console_answer q (inputs O)) Hcur Hq_wf)
      as (r & ->).
    rewrite next_question_eq. cbn [snd].
    rewrite IH; cbn [QuizEngine.with_score QuizEngine.with_index
                     QuizEngine.current_questions QuizEngine.current_question_index
                     QuizEngine.score].
    + rewrite (drop_S _ _ _ Hq).
      replace (Z.to_nat (QuizEngine.current_question_index s + 1))
        with (S (Z.to_nat (QuizEngine.current_question_index s))) by lia.
      cbn [quiz_points]. unfold QuizEngine.with_score, QuizEngine.with_index.
      cbn. do 2 f_equal. lia.
    + lia.
    + exact Hwf.
    + lia.
Qed.

(** X9.  The console loop, started on a session whose position is within
    the questions and whose questions are well formed, ends after one round
    for each remaining question without raising: the position is then
    the number of questions, and the score has grown by the points that
    the scoring rules give for the answers read.  Nothing else changes. *)
Theorem run_quiz_questions_completes (fuel : nat) (inputs : nat -> ConsoleInput.t)
        (s : QuizEngine.t) :
  0 <= QuizEngine.current_question_index s <= len (QuizEngine.current_questions s) ->
  Forall well_formed (QuizEngine.current_questions s) ->
  (Z.to_nat (len (QuizEngine.current_questions s)
             - QuizEngine.current_question_index s) < fuel)%nat ->
  run_quiz_questions fuel inputs s =
    (Return true,
     QuizEngine.with_score
       (QuizEngine.with_index s (len (QuizEngine.current_questions s)))
       (QuizEngine.score s
        + quiz_points
            (drop (Z.to_nat (QuizEngine.current_question_index s))
                  (QuizEngine.current_questions s))
            inputs)).
Proof. exact (run_quiz_questions_run fuel inputs s). Qed.

Lemma sample_loaded_well_formed :
  Forall well_formed (QuizEngine.current_questions sample_loaded).
Proof.
  repeat constructor; unfold well_formed, valid_index, len; simpl; lia.
Qed.

Lemma run_quiz_questions_completes_witness :
  run_quiz_questions 3 slow_inputs sample_loaded =
    (Return true,
     QuizEngine.with_score (QuizEngine.with_index sample_loaded 2)
       (0 + quiz_points (QuizEngine.current_questions sample_loaded) slow_inputs)).
Proof.
  apply (run_quiz_questions_completes 3 slow_inputs sample_loaded).
  - vm_compute. split; discriminate.
  - exact sample_loaded_well_formed.
  - vm_compute. lia.
Defined.

Lemma quiz_points_bounds (qs : list Question.t) (inputs : nat -> ConsoleInput.t) :
  Forall nonneg_marks qs ->
  - foldr Z.add 0 (map Question.negative_marks qs)
    <= quiz_points qs inputs
    <= foldr Z.add 0 (map Question.marks qs).
Proof.
  intros H. revert inputs. induction H as [|q qs [Hm Hn] _ IH]; intros inputs.
  - simpl. lia.
  - specialize (IH (fun k => inputs (S k))). cbn [quiz_points map foldr].
    unfold ScoringRules.score.
    destruct (console_answer q (inputs O)) as [i|]; [|simpl; lia].
    destruct (decide (i = Question.correct_answer q)); simpl; lia.
Qed.

Lemma quiz_points_perfect (qs : list Question.t) (inputs : nat -> ConsoleInput.t) :
  (forall k q, qs !! k = Some q ->
               console_answer q (inputs k) = Some (Question.correct_answer q)) ->
  quiz_points qs inputs = foldr Z.add 0 (map Question.marks qs).
Proof.
  revert inputs. induction qs as [|q qs IH]; intros inputs H; [reflexivity|].
  cbn [quiz_points map foldr]. rewrite (H O q) by reflexivity.
  rewrite (IH (fun k => inputs (S k))).
  - unfold ScoringRules.score. rewrite decide_True by reflexivity. reflexivity.
  - intros k q' Hk. apply (H (S k) q'). exact Hk.
Qed.

(** The state of a quiz that [load_quiz] has just loaded, played through by
    the console loop. *)
Lemma loaded_run (self loaded : QuizEngine.t) (department difficulty : string)
      (fuel : nat) (inputs : nat -> ConsoleInput.t) :
  load_quiz department difficulty self = (Return true, loaded) ->
  Forall well_formed (QuizEngine.current_questions loaded) ->
  (length (QuizEngine.current_questions loaded) < fuel)%nat ->
  QuizEngine.total_marks loaded =
    foldr Z.add 0 (map Question.marks (QuizEngine.current_questions loaded)) /\
  run_quiz_questions fuel inputs loaded =
    (Return true,
     QuizEngine.with_score
       (QuizEngine.with_index loaded (len (QuizEngine.current_questions loaded)))
       (quiz_points (QuizEngine.current_questions loaded) inputs)).
Proof.
  rewrite load_quiz_eq.
  destruct (catalogue self department difficulty) as [data|]; [|discriminate].
  intros [= <-]. cbn [QuizEngine.with_quiz QuizEngine.current_questions
                      QuizEngine.total_marks].
  intros Hwf Hfuel. split; [apply py_sum_foldr|].
  rewrite run_quiz_questions_run.
  - reflexivity.
  - unfold len. simpl. lia.
  - exact Hwf.
  - unfold len. simpl. lia.
Qed.

(** X10.  A quiz with well-formed questions and no negative marks or
    penalties, loaded and played through by the console loop, ends complete
    with a score between minus the sum of the penalties and the total
    marks. *)
Theorem console_quiz_score_bounds (self loaded : QuizEngine.t)
        (department difficulty : string) (fuel : nat)
        (inputs : nat -> ConsoleInput.t) :
  load_quiz department difficulty self = (Return true, loaded) ->
  Forall well_formed (QuizEngine.current_questions loaded) ->
  Forall nonneg_marks (QuizEngine.current_questions loaded) ->
  (length (QuizEngine.current_questions loaded) < fuel)%nat ->
  exists played,
    run_quiz_questions fuel inputs loaded = (Return true, played) /\
    is_quiz_complete played = true /\
    - foldr Z.add 0 (map Question.negative_marks (QuizEngine.current_questions loaded))
      <= QuizEngine.score played <= QuizEngine.total_marks played.
Proof.
  intros Hload Hwf Hnn Hfuel.
  destruct (loaded_run _ _ _ _ fuel inputs Hload Hwf Hfuel) as (Htotal & Hrun).
  pose proof (quiz_points_bounds _ inputs Hnn) as Hb.
  eexists. split; [exact Hrun|].
  cbn [QuizEngine.with_score QuizEngine.with_index QuizEngine.score
       QuizEngine.total_marks].
  split; [unfold is_quiz_complete; simpl; lia|].
  rewrite Htotal. exact Hb.
Qed.

Lemma sample_loaded_nonneg :
  Forall nonneg_marks (QuizEngine.current_questions sample_loaded).
Proof. repeat constructor; simpl; lia. Qed.

Lemma console_quiz_score_bounds_witness :
  exists played,
    run_quiz_questions 3 slow_inputs sample_loaded = (Return true, played) /\
    is_quiz_complete played = true /\
    - foldr Z.add 0 (map Question.negative_marks
                         (QuizEngine.current_questions sample_loaded))
      <= QuizEngine.score played <= QuizEngine.total_marks played.
Proof.
  apply (console_quiz_score_bounds sample_engine sample_loaded
           "Mathematics" "Easy" 3 slow_inputs).
  - reflexivity.
  - exact sample_loaded_well_formed.
  - exact sample_loaded_nonneg.
  - vm_compute. lia.
Defined.

(** X11.  When every round of the console loop reads the correct answer in
    time, the played quiz has the total marks as score, and a result that
    [get_final_result] then returns for positive total marks has passed. *)
Theorem console_quiz_perfect (self loaded : QuizEngine.t)
        (department difficulty : string) (fuel : nat)
        (inputs : nat -> ConsoleInput.t) :
  load_quiz department difficulty self = (Return true, loaded) ->
  Forall well_formed (QuizEngine.current_questions loaded) ->
  (length (QuizEngine.current_questions loaded) < fuel)%nat ->
  (forall k q, QuizEngine.current_questions loaded !! k = Some q ->
               console_answer q (inputs k) = Some (Question.correct_answer q)) ->
  exists played,
    run_quiz_questions fuel inputs loaded = (Return true, played) /\
    QuizEngine.score played = QuizEngine.total_marks played /\
    (forall player_name now result s',
       0 < QuizEngine.total_marks played ->
       get_final_result department difficulty player_name now played
         = (Return result, s') ->
       QuizResult.passed result = true).
Proof.
  intros Hload Hwf Hfuel Hperfect.
  destruct (loaded_run _ _ _ _ fuel inputs Hload Hwf Hfuel) as (Htotal & Hrun).
  eexists. split; [exact Hrun|].
  cbn [QuizEngine.with_score QuizEngine.with_index QuizEngine.score
       QuizEngine.total_marks].
  rewrite (quiz_points_perfect _ _ Hperfect).
  split; [symmetry; exact Htotal|].
  intros player_name now result s' Hpos.
  rewrite get_final_result_eq.
  cbn [QuizEngine.with_score QuizEngine.with_index QuizEngine.score
       QuizEngine.total_marks QuizEngine.high_score_manager] in *.
  rewrite Htotal in *. rewrite (compute_percentage_full_marks _ Hpos).
  destruct (add_score _ _) as [[[]|x] h]; [|discriminate].
  intros [= <- _]. reflexivity.
Qed.

Lemma console_quiz_perfect_witness :
  exists played,
    run_quiz_questions 3 perfect_inputs sample_loaded = (Return true, played) /\
    QuizEngine.score played = QuizEngine.total_marks played /\
    (forall player_name now result s',
       0 < QuizEngine.total_marks played ->
       get_final_result "Mathematics" "Easy" player_name now played
         = (Return result, s') ->
       QuizResult.passed result = true).
Proof.
  apply (console_quiz_perfect sample_engine sample_loaded
           "Mathematics" "Easy" 3 perfect_inputs).
  - reflexivity.
  - exact sample_loaded_well_formed.
  - vm_compute. lia.
  - intros [|[|k]] q Hq; vm_compute in Hq; [| |discriminate];
      injection Hq as <-; reflexivity.
Defined.

(** ** The engine as a whole *)

Lemma with_high_score_manager_same (self : QuizEngine.t) :
  QuizEngine.with_high_score_manager self (QuizEngine.high_score_manager self) = self.
Proof. destruct self. reflexivity. Qed.

(** X13.  [get_final_result] can be called in every state, complete or
    not: its outcome depends on the percentage and on the bucket only.
    When the percentage cannot be computed it raises the error of the
    computation and leaves the engine as it is.  Otherwise, without a
    bucket for the key it raises [KeyError] and leaves the engine as it is,
    and with one it returns a result that carries the arguments, the score,
    the total marks and the percentage, stores its entry, and leaves the
    session as it is. *)
Theorem get_final_result_any_time (self : QuizEngine.t)
        (department difficulty player_name now : string) :
  (forall x,
     compute_percentage (QuizEngine.score self) (QuizEngine.total_marks self)
       = Raise x ->
     get_final_result department difficulty player_name now self = (Raise x, self)) /\
  (forall percentage,
     compute_percentage (QuizEngine.score self) (QuizEngine.total_marks self)
       = Return percentage ->
     bucket (QuizEngine.high_score_manager self) department difficulty = None ->
     get_final_result department difficulty player_name now self
       = (Raise KeyError, self)) /\
  (forall percentage old,
     compute_percentage (QuizEngine.score self) (QuizEngine.total_marks self)
       = Return percentage ->
     bucket (QuizEngine.high_score_manager self) department difficulty = Some old ->
     exists s',
       get_final_result department difficulty player_name now self
         = (Return (QuizResult.mk department difficulty (QuizEngine.score self)
                      (QuizEngine.total_marks self) percentage player_name now),
            s') /\
       session s' = session self /\
       QuizEngine.all_questions s' = QuizEngine.all_questions self /\
       bucket (QuizEngine.high_score_manager s') department difficulty =
         Some (take 10
                 (inserted old
                    (QuizResult.mk department difficulty (QuizEngine.score self)
                       (QuizEngine.total_marks self) percentage player_name now)))).
Proof.
  rewrite get_final_result_eq. split; [|split].
  - intros x ->. reflexivity.
  - intros p -> Hb. rewrite add_score_absent by exact Hb.
    rewrite with_high_score_manager_same. reflexivity.
  - intros p old -> Hb.
    destruct (add_score_present
                (QuizResult.mk department difficulty (QuizEngine.score self)
                   (QuizEngine.total_marks self) p player_name now)
                _ _ Hb) as (h' & -> & _ & Hh').
    eexists. split; [reflexivity|].
    split; [reflexivity|]. split; [reflexivity|].
    simpl. rewrite Hh'. simpl. rewrite decide_True by done. reflexivity.
Qed.

Lemma get_final_result_any_time_witness :
  get_final_result "Mathematics" "Easy" "Alice" "2024-01-01 10:00:00" overflow_played
    = (Raise OverflowError, overflow_played) /\
  get_final_result "Physics" "Easy" "Alice" "2024-01-01 10:00:00" sample_loaded
    = (Raise KeyError, sample_loaded) /\
  is_quiz_complete sample_loaded = false /\
  exists s',
    get_final_result "Mathematics" "Easy" "Alice" "2024-01-01 10:00:00" sample_loaded
      = (Return (QuizResult.mk "Mathematics" "Easy" 0 30 (Finite 0) "Alice"
                   "2024-01-01 10:00:00"), s') /\
    session s' = session sample_loaded /\
    QuizEngine.all_questions s' = QuizEngine.all_questions sample_loaded /\
    bucket (QuizEngine.high_score_manager s') "Mathematics" "Easy" =
      Some (take 10
              (inserted []
                 (QuizResult.mk "Mathematics" "Easy" 0 30 (Finite 0) "Alice"
                    "2024-01-01 10:00:00"))).
Proof.
  split; [|split; [|split; [reflexivity|]]].
  - apply (proj1 (get_final_result_any_time overflow_played "Mathematics" "Easy"
                    "Alice" "2024-01-01 10:00:00")).
    vm_compute. reflexivity.
  - apply (proj1 (proj2 (get_final_result_any_time sample_loaded "Physics" "Easy"
                           "Alice" "2024-01-01 10:00:00")) (Finite 0)).
    + vm_compute. reflexivity.
    + reflexivity.
  - apply (proj2 (proj2 (get_final_result_any_time sample_loaded "Mathematics"
                           "Easy" "Alice" "2024-01-01 10:00:00")) (Finite 0) []).
    + vm_compute. reflexivity.
    + reflexivity.
Defined.

(** X14.  In every state that [load_quiz], [submit_answer] and
    [next_question] reach, there is no current question exactly when the
    quiz is complete; while it is not complete, [get_progress] returns a
    question number from 1 to the number of questions, and the current
    question is the one with that number. *)
Theorem progress_of_reachable (s : QuizEngine.t) :
  reachable s ->
  (current s = None <-> is_quiz_complete s = true) /\
  (is_quiz_complete s = false ->
   1 <= (get_progress s).1 <= (get_progress s).2 /\
   (get_progress s).2 = len (QuizEngine.current_questions s) /\
   is_Some (current s) /\
   current s =
     QuizEngine.current_questions s !! Z.to_nat ((get_progress s).1 - 1)).
Proof.
  intros Hs. pose proof (reachable_position s Hs) as Hpos.
  unfold is_quiz_complete, get_progress. simpl. split.
  - rewrite current_None, Z.leb_le. lia.
  - intros Hc. apply Z.leb_gt in Hc.
    destruct (current_lookup s) as (q & Hq & Hcur); [lia|].
    split; [lia|]. split; [reflexivity|]. rewrite Hcur. split; [eauto|].
    rewrite <- Hq. f_equal. lia.
Qed.

Lemma progress_of_reachable_witness :
  (current sample_played = None <-> is_quiz_complete sample_played = true) /\
  (is_quiz_complete sample_played = false ->
   1 <= (get_progress sample_played).1 <= (get_progress sample_played).2 /\
   (get_progress sample_played).2 = len (QuizEngine.current_questions sample_played) /\
   is_Some (current sample_played) /\
   current sample_played =
     QuizEngine.current_questions sample_played
       !! Z.to_nat ((get_progress sample_played).1 - 1)).
Proof.
  apply (progress_of_reachable sample_played), sample_played_reachable.
Defined.

Lemma step_all_questions (s s' : QuizEngine.t) :
  step s s' -> QuizEngine.all_questions s' = QuizEngine.all_questions s.
Proof.
  intros [s0 department difficulty | s0 answer | s0
          | s0 department difficulty player_name now].
  - rewrite load_quiz_eq.
    destruct (catalogue s0 department difficulty); reflexivity.
  - rewrite (proj1 (submit_answer_touches_score_only s0 answer)). reflexivity.
  - reflexivity.
  - rewrite get_final_result_eq.
    destruct (compute_percentage _ _) as [p|x]; [|reflexivity].
    destruct (add_score _ _) as [[[]|x] h]; reflexivity.
Qed.

Lemma steps_all_questions (s s' : QuizEngine.t) :
  rtc step s s' -> QuizEngine.all_questions s' = QuizEngine.all_questions s.
Proof.
  induction 1 as [|s1 s2 s3 H12 _ IH]; [reflexivity|].
  rewrite IH. apply step_all_questions, H12.
Qed.

(** X15.  No method of the engine changes the catalogue, and [load_quiz]
    forgets the session: after any sequence of calls it returns what it
    returns on the engine before those calls and, when it succeeds, sets up
    the same questions, position, score and total marks. *)
Theorem load_quiz_after_steps (s s' : QuizEngine.t) (department difficulty : string) :
  rtc step s s' ->
  QuizEngine.all_questions s' = QuizEngine.all_questions s /\
  (load_quiz department difficulty s').1 = (load_quiz department difficulty s).1 /\
  ((load_quiz department difficulty s).1 = Return true ->
   session (load_quiz department difficulty s').2
     = session (load_quiz department difficulty s).2).
Proof.
  intros Hsteps. pose proof (steps_all_questions s s' Hsteps) as Haq.
  split; [exact Haq|].
  rewrite !load_quiz_eq. unfold catalogue. rewrite Haq.
  destruct (QuizEngine.all_questions s !! department) as [by_diff|]; simpl;
    [destruct (by_diff !! difficulty); simpl|];
    (split; [reflexivity|]); intros H; (reflexivity || discriminate).
Qed.

Lemma sample_played_steps : rtc step sample_engine sample_played.
Proof.
  unfold sample_played, sample_loaded.
  eapply rtc_l; [apply (step_load _ "Mathematics" "Easy")|].
  eapply rtc_l; [apply (step_submit _ (Some 0))|].
  eapply rtc_l; [apply step_next|].
  eapply rtc_l; [apply (step_submit _ None)|].
  eapply rtc_l; [apply step_next|].
  apply rtc_refl.
Qed.

Lemma load_quiz_after_steps_witness :
  QuizEngine.all_questions sample_played = QuizEngine.all_questions sample_engine /\
  (load_quiz "Mathematics" "Easy" sample_played).1
    = (load_quiz "Mathematics" "Easy" sample_engine).1 /\
  ((load_quiz "Mathematics" "Easy" sample_engine).1 = Return true ->
   session (load_quiz "Mathematics" "Easy" sample_played).2
     = session (load_quiz "Mathematics" "Easy" sample_engine).2).
Proof.
  apply (load_quiz_after_steps sample_engine sample_played "Mathematics" "Easy").
  exact sample_played_steps.
Defined.

Lemma step_store_ok (s s' : QuizEngine.t) :
  step s s' ->
  store_ok (QuizEngine.high_score_manager s) ->
  store_ok (QuizEngine.high_score_manager s').
Proof.
  intros [s0 department difficulty | s0 answer | s0
          | s0 department difficulty player_name now] Hok.
  - rewrite load_quiz_eq.
    destruct (catalogue s0 department difficulty); exact Hok.
  - rewrite (proj1 (submit_answer_touches_score_only s0 answer)). exact Hok.
  - exact Hok.
  - rewrite get_final_result_eq.
    destruct (compute_percentage _ _) as [p|x]; [|exact Hok].
    pose proof (add_score_store_ok
                  (QuizResult.mk department difficulty (QuizEngine.score s0)
                     (QuizEngine.total_marks s0) p player_name now)
                  _ Hok) as Hok'.
    destruct (add_score _ _) as [[[]|x] h]; exact Hok'.
Qed.

(** X16.  Through every sequence of calls of the engine's methods the high
    scores keep at most ten entries per bucket, in ranking order, when they
    did at the start; only [get_final_result] touches them. *)
Theorem engine_keeps_store_ok (s s' : QuizEngine.t) :
  rtc step s s' ->
  store_ok (QuizEngine.high_score_manager s) ->
  store_ok (QuizEngine.high_score_manager s') /\
  (forall answer,
     QuizEngine.high_score_manager (submit_answer answer s').2
       = QuizEngine.high_score_manager s') /\
  QuizEngine.high_score_manager (next_question s').2
    = QuizEngine.high_score_manager s' /\
  (forall department difficulty,
     QuizEngine.high_score_manager (load_quiz department difficulty s').2
       = QuizEngine.high_score_manager s').
Proof.
  intros Hsteps Hok. split.
  - induction Hsteps as [|s1 s2 s3 H12 _ IH]; [exact Hok|].
    apply IH, (step_store_ok _ _ H12), Hok.
  - split; [|split].
    + intros answer.
      rewrite (proj1 (submit_answer_touches_score_only s' answer)). reflexivity.
    + reflexivity.
    + intros department difficulty. rewrite load_quiz_eq.
      destruct (catalogue s' department difficulty); reflexivity.
Qed.

Lemma engine_keeps_store_ok_witness :
  store_ok (QuizEngine.high_score_manager sample_played) /\
  (forall answer,
     QuizEngine.high_score_manager (submit_answer answer sample_played).2
       = QuizEngine.high_score_manager sample_played) /\
  QuizEngine.high_score_manager (next_question sample_played).2
    = QuizEngine.high_score_manager sample_played /\
  (forall department difficulty,
     QuizEngine.high_score_manager (load_quiz department difficulty sample_played).2
       = QuizEngine.high_score_manager sample_played).
Proof.
  apply (engine_keeps_store_ok sample_engine sample_played).
  - exact sample_played_steps.
  - apply default_store_ok.
Defined.

(** X17.  [load_quiz] succeeds exactly on the difficulties that
    [get_difficulties] lists for the department: a quiz chosen from the
    lists of the engine always loads, and nothing else does. *)
Theorem load_quiz_iff_listed (self : QuizEngine.t) (department difficulty : string) :
  (load_quiz department difficulty self).1 = Return true <->
  difficulty ∈ get_difficulties self department.
Proof.
  rewrite load_quiz_eq. unfold catalogue, get_difficulties.
  rewrite list_elem_of_fmap.
  destruct (QuizEngine.all_questions self !! department) as [by_diff|]; simpl.
  - destruct (by_diff !! difficulty) as [data|] eqn:E; simpl.
    + split; [intros _ | reflexivity].
      exists (difficulty, data). split; [reflexivity|].
      apply elem_of_map_to_list. exact E.
    + split; [discriminate|].
      intros ([k data] & -> & H). apply elem_of_map_to_list in H.
      simpl in E. congruence.
  - split; [discriminate|].
    intros ([k data] & _ & H). apply elem_of_map_to_list in H.
    rewrite lookup_empty in H. discriminate.
Qed.

(** X18.  In every reachable state, [next_question] returns [True] exactly
    when a question is current after the call, and [False] exactly when the
    quiz is complete after it; it changes the position only. *)
Theorem next_question_tells_current (s : QuizEngine.t) :
  reachable s ->
  ((next_question s).1 = Return true <-> is_Some (current (next_question s).2)) /\
  ((next_question s).1 = Return false <->
   is_quiz_complete (next_question s).2 = true) /\
  (next_question s).2 =
    QuizEngine.with_index s (QuizEngine.current_question_index s + 1).
Proof.
  intros Hs. pose proof (reachable_position s Hs) as Hpos.
  rewrite next_question_eq. cbn [fst snd].
  unfold is_quiz_complete. cbn [QuizEngine.with_index
    QuizEngine.current_questions QuizEngine.current_question_index].
  split; [|split; [|reflexivity]].
  - destruct (QuizEngine.current_question_index s + 1
                <? len (QuizEngine.current_questions s)) eqn:E.
    + split; [intros _ | reflexivity].
      destruct (current_lookup
                  (QuizEngine.with_index s (QuizEngine.current_question_index s + 1)))
        as (q & _ & Hq); [simpl; lia | eauto].
    + split; [discriminate|]. intros [q Hq]. exfalso.
      assert (current (QuizEngine.with_index s
                         (QuizEngine.current_question_index s + 1)) = None) as Hn
          by (apply current_None; simpl; lia).
      congruence.
  - destruct (QuizEngine.current_question_index s + 1
                <? len (QuizEngine.current_questions s)) eqn:E.
    + split; [discriminate | lia].
    + split; [lia | reflexivity].
Qed.

Lemma next_question_tells_current_witness :
  ((next_question sample_loaded).1 = Return true <->
   is_Some (current (next_question sample_loaded).2)) /\
  ((next_question sample_loaded).1 = Return false <->
   is_quiz_complete (next_question sample_loaded).2 = true) /\
  (next_question sample_loaded).2 =
    QuizEngine.with_index sample_loaded
      (QuizEngine.current_question_index sample_loaded + 1).
Proof.
  apply (next_question_tells_current sample_loaded).
  apply reachable_load, reachable_init.
Defined.
